(** * The cart and payment views of the storefront (cart/views.py)

    A shallow embedding of the views that mutate an order: the line-item
    views (add, increase, decrease, remove), the two confirmation paths
    (the PayPal callback and the Stripe webhook) and the Stripe payment
    view that records a payment intent.

    The database is a record of tables, each table a finite map from the
    primary key to the row.  settings.py sets no ATOMIC_REQUESTS, so every
    save commits at once: a view is a function from the database to the new
    database together with either a response or the exception that escaped
    the view. *)

From Stdlib Require Import ZArith Ascii String.
From stdpp Require Import base option list strings pretty gmap fin_maps.

Local Open Scope string_scope.
Local Open Scope Z_scope.

(** ** Python values that cross the views *)

(** The value json.loads returns: None, bool, int, float, str, list, dict.
    [F] is the type of Python floats. *)
#[warnings="-register-all"]
Inductive json (F : Type) : Type :=
| JNull
| JBool (b : bool)
| JInt (z : Z)
| JFloat (f : F)
| JStr (s : string)
| JArr (l : list (json F))
| JObj (d : gmap string (json F)).

Arguments JNull {F}.
Arguments JBool {F} b.
Arguments JInt {F} z.
Arguments JFloat {F} f.
Arguments JStr {F} s.
Arguments JArr {F} l.
Arguments JObj {F} d.

(** The exceptions that can leave a view.  A subclass caught as its base
    class is the base class here (JSONDecodeError and UnicodeDecodeError
    are ValueError); OtherError is an exception of any class that is none
    of the others, nor a subclass of one.  CardError carries what the handler of the saved-card view reads from
    it, err.code and then err.payment_intent['id']: the identifier of the
    intent, or the exception one of the reads raises (AttributeError when
    e.error is None, TypeError when err.payment_intent is None, KeyError
    when it has no id). *)
#[warnings="-register-all"]
Inductive Exn : Type :=
| Http404
| DoesNotExist
| MultipleObjectsReturned
| KeyError
| IndexError
| TypeError
| ValueError
| OverflowError
| AttributeError
| DatabaseError
| SignatureVerificationError
| StripeError (code : string)
| CardError (payment_intent : Exn + string)
| OtherError (name : string).

Inductive outcome (A : Type) : Type :=
| Done (a : A)
| Raise (e : Exn).

Arguments Done {A} a.
Arguments Raise {A} e.

(** Scalars whose representation lives outside the views: Python floats and
    the value Order.get_total returns (cart/models.py). *)
Class Scalars : Type := {
  pyfloat : Type;
  money : Type;
}.

(** ordered_date receives a date on the callback path and a datetime on the
    webhook path. *)
Inductive Stamp : Type :=
| Date (d : Z)
| DateTime (t : Z).

Record Clock : Type := {
  today : Z;   (* datetime.date.today() *)
  now : Z;     (* timezone.now() *)
}.

(** ** Rows *)

Record Order : Type := {
  order_user : option Z;
  ordered : bool;
  ordered_date : option Stamp;
}.

Record OrderItem : Type := {
  item_order : Z;
  item_product : Z;
  colour : string;
  size : string;
  quantity : Z;
}.

Record Product : Type := {
  slug : string;
  price : Z;
}.

Inductive PaymentMethod : Type :=
| PAYPAL_PAYMENT_METHOD.

Section Tables.
Context `{Scalars}.

Record StripePayment : Type := {
  sp_order : Z;
  payment_intent_id : string;
  sp_amount : option money;
  successful : bool;
}.

Record Payment : Type := {
  pay_order : Z;
  pay_successful : bool;
  raw_response : string;
  pay_amount : pyfloat;
  payment_method : PaymentMethod;
}.

Record Customer : Type := {
  stripe_customer_id : string;
}.

Record DB : Type := {
  orders : gmap Z Order;
  items : gmap Z OrderItem;
  products : gmap Z Product;
  stripe_payments : gmap Z StripePayment;
  payments : list Payment;
  customers : gmap Z Customer;
}.

Definition with_orders (db : DB) (m : gmap Z Order) : DB :=
  {| orders := m; items := items db; products := products db;
     stripe_payments := stripe_payments db; payments := payments db;
     customers := customers db |}.

Definition with_items (db : DB) (m : gmap Z OrderItem) : DB :=
  {| orders := orders db; items := m; products := products db;
     stripe_payments := stripe_payments db; payments := payments db;
     customers := customers db |}.

Definition with_stripe_payments (db : DB) (m : gmap Z StripePayment) : DB :=
  {| orders := orders db; items := items db; products := products db;
     stripe_payments := m; payments := payments db;
     customers := customers db |}.

Definition with_payments (db : DB) (l : list Payment) : DB :=
  {| orders := orders db; items := items db; products := products db;
     stripe_payments := stripe_payments db; payments := l;
     customers := customers db |}.

Definition with_customers (db : DB) (m : gmap Z Customer) : DB :=
  {| orders := orders db; items := items db; products := products db;
     stripe_payments := stripe_payments db; payments := payments db;
     customers := m |}.

(** ** The monad of a view: the database is threaded, an exception stops
    the view and keeps what was saved before it. *)
Definition M (A : Type) : Type := DB → DB * outcome A.

Definition ret {A} (a : A) : M A := λ db, (db, Done a).

Definition bind {A B} (m : M A) (k : A → M B) : M B :=
  λ db, match m db with
        | (db', Done a) => k a db'
        | (db', Raise e) => (db', Raise e)
        end.

Definition read {A} (f : DB → A) : M A := λ db, (db, Done (f db)).

Definition write (f : DB → DB) : M unit := λ db, (f db, Done tt).

Definition lift {A} (o : outcome A) : M A := λ db, (db, o).

(** instance.save(update_fields=[..]) for the row [pk]: the listed
    columns are written ([f] sets them); Django raises DatabaseError when
    the update touches no row. *)
Definition save_update_fields {A} (table : DB → gmap Z A)
    (with_table : DB → gmap Z A → DB) (f : A → A) (pk : Z) : M unit :=
  λ db, match table db !! pk with
        | Some _ => (with_table db (alter f pk (table db)), Done tt)
        | None => (db, Raise DatabaseError)
        end.
End Tables.

Notation "x <- c1 ;; c2" := (bind c1 (λ x, c2))
  (at level 100, c1 at next level, right associativity).
Notation "c1 ;;; c2" := (bind c1 (λ _, c2))
  (at level 100, right associativity).

(** ** Requests and responses *)

Record Request : Type := {
  user : option Z;                          (* None: AnonymousUser *)
  body : string;
  HTTP_STRIPE_SIGNATURE : option string;    (* request.META *)
}.

Inductive Response `{Scalars} : Type :=
| HttpResponse (status : Z)
| Redirect (to : string)
| JsonResponse (data : json pyfloat).

(** cleaned_data of AddToCartForm. *)
Record AddToCartForm : Type := {
  form_colour : string;
  form_size : string;
  form_quantity : Z;
}.

(** The event stripe.Webhook.construct_event returns, by the two
    expressions the webhook evaluates on it: event.type, which is any JSON
    value or raises AttributeError when the event has none ([None]), and
    event.data.object["id"], which is any JSON value or raises
    (AttributeError without data or data.object, KeyError without id,
    TypeError when the object cannot be subscripted). *)
Record Event `{Scalars} : Type := {
  event_type : option (json pyfloat);
  data_object_id : outcome (json pyfloat);
}.

(** Code the views call but that is not theirs: cart/utils.py,
    the Order methods of cart/models.py, the json module, float(), the
    stripe library and the settings read from the environment. *)
Class Collaborators `{Scalars} : Type := {
  get_or_set_order_session : Request → M Z;
  get_raw_total : DB → Z → Z;
  get_total : DB → Z → money;
  json_loads : string → outcome (json pyfloat);   (* or what json.loads raises *)
  json_dumps : json pyfloat → string;
  float_of_str : string → option pyfloat;         (* None: ValueError *)
  float_of_int : Z → option pyfloat;              (* None: OverflowError *)
  float_of_bool : bool → pyfloat;
  py_str : json pyfloat → string;                 (* str(value) *)
  construct_event : string → string → string → outcome Event;   (* or what it raises *)
  STRIPE_WEBHOOK_SECRET : string;
  STRIPE_PUBLIC_KEY : string;
}.

(** ** Queries *)

Section Queries.
Context `{Scalars}.

(** Model.objects.get with a filter: exactly one row, or DoesNotExist, or
    MultipleObjectsReturned. *)
Definition objects_get {A} (table : DB → gmap Z A) (P : Z * A → Prop)
    `{∀ x, Decision (P x)} : M (Z * A) :=
  λ db, match map_to_list (filter P (table db)) with
        | [] => (db, Raise DoesNotExist)
        | [row] => (db, Done row)
        | _ => (db, Raise MultipleObjectsReturned)
        end.

(** get_object_or_404 on a filter: DoesNotExist becomes Http404. *)
Definition get_object_or_404 {A} (table : DB → gmap Z A) (P : Z * A → Prop)
    `{∀ x, Decision (P x)} : M (Z * A) :=
  λ db, match objects_get table P db with
        | (db', Raise DoesNotExist) => (db', Raise Http404)
        | r => r
        end.

(** get_object_or_404 on id=pk: the primary key selects at most one
    row. *)
Definition get_object_or_404_id {A} (table : DB → gmap Z A) (pk : Z) : M A :=
  λ db, match table db !! pk with
        | Some row => (db, Done row)
        | None => (db, Raise Http404)
        end.

Definition lower_key {A} (x : Z * A) (acc : option (Z * A)) : option (Z * A) :=
  match acc with
  | None => Some x
  | Some y => if x.1 <? y.1 then Some x else Some y
  end.

(** QuerySet.first() of an unordered queryset: the row of lowest pk. *)
Definition first {A} (m : gmap Z A) : option (Z * A) :=
  foldr lower_key None (map_to_list m).

(** The pk the database gives a new row: one that no row has. *)
Definition new_pk {A} (m : gmap Z A) : Z := fresh (dom m).
End Queries.

(** ** The line-item views *)

Section LineItems.
Context `{Scalars}.

Definition set_quantity (q : Z) (it : OrderItem) : OrderItem :=
  {| item_order := item_order it; item_product := item_product it;
     colour := colour it; size := size it; quantity := q |}.

(** order.items.filter(product=.., colour=.., size=..) *)
Definition matches (order product : Z) (c s : string) (row : Z * OrderItem) : Prop :=
  item_order row.2 = order ∧ item_product row.2 = product ∧
  colour row.2 = c ∧ size row.2 = s.

#[global] Instance matches_dec order product c s row :
  Decision (matches order product c s row).
Proof. unfold matches. apply _. Defined.

Definition item_filter (db : DB) (order product : Z) (c s : string) : gmap Z OrderItem :=
  filter (matches order product c s) (items db).

(** Modelled from the spec: cart/forms.py is not among the sources.
    AddToCartForm is the model form of an order item; save(commit=False)
    builds the unsaved item from the colour, size and quantity of the
    form ("create a new item with that quantity"), and the view then
    sets its product and order. *)
Definition form_save (form : AddToCartForm) (order product : Z) : OrderItem :=
  {| item_order := order; item_product := product;
     colour := form_colour form; size := form_size form;
     quantity := form_quantity form |}.

(** ProductDetailView.form_valid, from the filter to the save. *)
Definition add_or_merge (order product : Z) (form : AddToCartForm) : M unit :=
  λ db,
    let found := item_filter db order product (form_colour form) (form_size form) in
    if decide (found = ∅) then
      let new_item := form_save form order product in
      (with_items db (<[new_pk (items db) := new_item]> (items db)), Done tt)
    else
      match first found with
      | Some (pk, item) =>
          let item' := set_quantity (quantity item + form_quantity form) item in
          (with_items db (<[pk := item']> (items db)), Done tt)
      | None => (db, Raise AttributeError)
      end.

Definition slug_is (s : string) (row : Z * Product) : Prop := slug row.2 = s.

#[global] Instance slug_is_dec s row : Decision (slug_is s row).
Proof. unfold slug_is. apply _. Defined.

(** ProductDetailView.get_object *)
Definition get_object (kwargs_slug : string) : M (Z * Product) :=
  get_object_or_404 products (slug_is kwargs_slug).

(** save(update_fields=['quantity']): one column of the row is written;
    Django raises DatabaseError when the update touches no row. *)
Definition save_quantity (pk q : Z) : M unit :=
  save_update_fields items with_items (set_quantity q) pk.

Definition delete_item (pk : Z) : M unit :=
  write (λ db, with_items db (delete pk (items db))).

Definition IncreaseQuantityView_get (request : Request) (pk : Z) : M Response :=
  order_item <- get_object_or_404_id items pk ;;
  save_quantity pk (quantity order_item + 1) ;;;
  ret (Redirect "cart:summary").

Definition DecreaseQuantityView_get (request : Request) (pk : Z) : M Response :=
  order_item <- get_object_or_404_id items pk ;;
  (if quantity order_item <=? 1
   then delete_item pk
   else save_quantity pk (quantity order_item - 1)) ;;;
  ret (Redirect "cart:summary").

Definition RemoveFromCartView_get (request : Request) (pk : Z) : M Response :=
  order_item <- get_object_or_404_id items pk ;;
  delete_item pk ;;;
  ret (Redirect "cart:summary").

Context `{!Collaborators}.

Definition ProductDetailView_form_valid (request : Request) (kwargs_slug : string)
    (form : AddToCartForm) : M Response :=
  order <- get_or_set_order_session request ;;
  product <- get_object kwargs_slug ;;
  add_or_merge order product.1 form ;;;
  ret (Redirect "cart:summary").

(** ProductDetailView.get_form_kwargs: kwargs["product_id"] is
    self.get_object().id. *)
Definition get_form_kwargs (kwargs_slug : string) : M Z :=
  product <- get_object kwargs_slug ;;
  ret product.1.

(** FormView.post on the product page: the form is built from
    get_form_kwargs; form_valid runs when the form is valid, and when it is
    not the page is rendered again (status 200), with the product of
    get_context_data in its context.  [cleaned] is the outcome of
    form.is_valid(): the cleaned form, or [None]. *)
Definition ProductDetailView_post (request : Request) (kwargs_slug : string)
    (cleaned : option AddToCartForm) : M Response :=
  _ <- get_form_kwargs kwargs_slug ;;
  match cleaned with
  | Some form => ProductDetailView_form_valid request kwargs_slug form
  | None =>
      _ <- get_object kwargs_slug ;;
      ret (HttpResponse 200)
  end.
End LineItems.

(** ** The confirmation views *)

Section Confirmation.
Context `{Scalars} `{!Collaborators}.

(** value[key] for a str key *)
Definition getitem_key (j : json pyfloat) (key : string) : outcome (json pyfloat) :=
  match j with
  | JObj d => match d !! key with
              | Some v => Done v
              | None => Raise KeyError
              end
  | _ => Raise TypeError
  end.

(** value[0]: the keys of a decoded object are str, so 0 is never one. *)
Definition getitem_0 (j : json pyfloat) : outcome (json pyfloat) :=
  match j with
  | JArr l => match l with
              | v :: _ => Done v
              | [] => Raise IndexError
              end
  | JStr s => match s with
              | String c _ => Done (JStr (String c EmptyString))
              | EmptyString => Raise IndexError
              end
  | JObj _ => Raise KeyError
  | _ => Raise TypeError
  end.

(** float(value) *)
Definition py_float (j : json pyfloat) : outcome pyfloat :=
  match j with
  | JFloat f => Done f
  | JInt z => match float_of_int z with
              | Some f => Done f
              | None => Raise OverflowError
              end
  | JBool b => Done (float_of_bool b)
  | JStr s => match float_of_str s with
              | Some f => Done f
              | None => Raise ValueError
              end
  | _ => Raise TypeError
  end.

Definition place (stamp : Stamp) (o : Order) : Order :=
  {| order_user := order_user o; ordered := true; ordered_date := Some stamp |}.

(** body["purchase_units"][0]["amount"]["value"] *)
Definition amount_value (body : json pyfloat) : outcome (json pyfloat) :=
  match getitem_key body "purchase_units" with
  | Done units =>
      match getitem_0 units with
      | Done unit0 =>
          match getitem_key unit0 "amount" with
          | Done amount => getitem_key amount "value"
          | Raise e => Raise e
          end
      | Raise e => Raise e
      end
  | Raise e => Raise e
  end.

(** The row Payment.objects.create receives in ConfirmOrderView.post. *)
Definition attempt (order : Z) (j : json pyfloat) (a : pyfloat) : Payment :=
  {| pay_order := order; pay_successful := true; raw_response := json_dumps j;
     pay_amount := a; payment_method := PAYPAL_PAYMENT_METHOD |}.

Definition ConfirmOrderView_post (clock : Clock) (request : Request) : M Response :=
  order <- get_or_set_order_session request ;;
  body <- lift (json_loads (body request)) ;;
  value <- lift (amount_value body) ;;
  amount <- lift (py_float value) ;;
  write (λ db, with_payments db (payments db ++ [attempt order body amount])) ;;;
  save_update_fields orders with_orders (place (Date (today clock))) order ;;;
  ret (JsonResponse (JObj {[ "data" := JStr "Success" ]})).

(** event.type == 'payment_intent.succeeded': a type that is not a str is
    never equal to it. *)
Definition is_succeeded (kind : json pyfloat) : bool :=
  match kind with
  | JStr s => bool_decide (s = "payment_intent.succeeded")
  | _ => false
  end.

(** What the lookup payment_intent_id=value compares the column with: the
    str itself, NULL ([None]) for None, which no text column equals, and
    str(value) for any other value.  (cart/models.py is not among the
    sources; the column is a text column, as for str_of_tuple1.) *)
Definition lookup_text (value : json pyfloat) : option string :=
  match value with
  | JStr s => Some s
  | JNull => None
  | _ => Some (py_str value)
  end.

Definition intent_is (text : option string) (row : Z * StripePayment) : Prop :=
  Some (payment_intent_id row.2) = text.

#[global] Instance intent_is_dec text row : Decision (intent_is text row).
Proof. unfold intent_is. apply _. Defined.

Definition set_successful (sp : StripePayment) : StripePayment :=
  {| sp_order := sp_order sp; payment_intent_id := payment_intent_id sp;
     sp_amount := sp_amount sp; successful := true |}.

(** stripe_payment.order: the row the foreign key points at. *)
Definition related_order (sp : StripePayment) : M Order :=
  λ db, match orders db !! sp_order sp with
        | Some o => (db, Done o)
        | None => (db, Raise DoesNotExist)
        end.

Definition stripe_webhook_view (clock : Clock) (request : Request) : M Response :=
  let endpoint_secret := STRIPE_WEBHOOK_SECRET in
  let payload := body request in
  sig_header <- lift (match HTTP_STRIPE_SIGNATURE request with
                      | Some h => Done h
                      | None => Raise KeyError
                      end) ;;
  match construct_event payload sig_header endpoint_secret with
  | Raise ValueError => ret (HttpResponse 400)
  | Raise SignatureVerificationError => ret (HttpResponse 400)
  | Raise e => lift (Raise e)
  | Done event =>
      kind <- lift (match event_type event with
                    | Some kind => Done kind
                    | None => Raise AttributeError
                    end) ;;
      if is_succeeded kind then
        intent <- lift (data_object_id event) ;;
        stripe_payment <- objects_get stripe_payments
                            (intent_is (lookup_text intent)) ;;
        let saved := set_successful stripe_payment.2 in
        write (λ db, with_stripe_payments db
                 (<[stripe_payment.1 := saved]> (stripe_payments db))) ;;;
        order <- related_order saved ;;
        write (λ db, with_orders db
                 (<[sp_order saved := place (DateTime (now clock)) order]> (orders db))) ;;;
        ret (HttpResponse 200)
      else
        ret (HttpResponse 400)
  end.
End Confirmation.

(** ** The Stripe payment view *)

Record Intent : Type := {
  intent_id : string;       (* payment_intent["id"] *)
  client_secret : string;
}.

Record Card : Type := {
  card_id : string;
  last4 : string;
  brand : string;
  exp_month : Z;
  exp_year : Z;
}.

(** The answers of the processor to the calls of one request. *)
Record Stripe : Type := {
  Customer_create : outcome string;
  PaymentIntent_create : Z → string → outcome Intent;
  PaymentIntent_confirm : Z → string → string → outcome Intent;
  PaymentIntent_retrieve : string → outcome unit;
  PaymentMethod_list : string → outcome (list Card);
}.

Record PaymentMethodEntry : Type := {
  pm_last4 : string;
  pm_brand : string;
  pm_exp_month : Z;
  pm_exp_year : Z;
  pm_id : string;
}.

Record TemplateContext : Type := {
  ctx_STRIPE_PUBLIC_KEY : string;
  ctx_client_secret : string;
  ctx_payment_methods : list PaymentMethodEntry;
}.

(** str(t) for a tuple t = (s,) whose only element is a str without
    quotes, backslashes or control characters (a processor identifier):
    what CharField stores when it is handed such a tuple. *)
Definition str_of_tuple1 (s : string) : string := "('" +:+ s +:+ "',)".

Section StripePaymentView.
Context `{Scalars} `{!Collaborators}.

Definition order_is (order : Z) (row : Z * StripePayment) : Prop :=
  sp_order row.2 = order.

#[global] Instance order_is_dec order row : Decision (order_is order row).
Proof. unfold order_is. apply _. Defined.

(** StripePayment.objects.get_or_create(order=order) *)
Definition get_or_create (order : Z) : M (Z * StripePayment) :=
  λ db, match objects_get stripe_payments (order_is order) db with
        | (db', Raise DoesNotExist) =>
            let pk := new_pk (stripe_payments db') in
            let created := {| sp_order := order; payment_intent_id := EmptyString;
                              sp_amount := None; successful := false |} in
            (with_stripe_payments db' (<[pk := created]> (stripe_payments db')),
             Done (pk, created))
        | r => r
        end.

Definition set_intent (id : string) (amount : money) (sp : StripePayment) : StripePayment :=
  {| sp_order := sp_order sp; payment_intent_id := id;
     sp_amount := Some amount; successful := successful sp |}.

(** save(update_fields=[amount, payment_intent_id]) *)
Definition save_intent (pk : Z) (id : string) (amount : money) : M unit :=
  save_update_fields stripe_payments with_stripe_payments (set_intent id amount) pk.

(** user.customer of request.user *)
Definition user_customer (request : Request) : M (Z * Customer) :=
  λ db, match user request with
        | None => (db, Raise AttributeError)
        | Some uid => match customers db !! uid with
                      | Some c => (db, Done (uid, c))
                      | None => (db, Raise DoesNotExist)
                      end
        end.

Definition card_entry (card : Card) : PaymentMethodEntry :=
  {| pm_last4 := last4 card; pm_brand := brand card;
     pm_exp_month := exp_month card; pm_exp_year := exp_year card;
     pm_id := card_id card |}.

Definition StripePaymentView_get_context_data (stripe : Stripe) (request : Request)
    : M TemplateContext :=
  customer <- user_customer request ;;
  customer_id <-
    (if decide (stripe_customer_id customer.2 = EmptyString) then
       new_id <- lift (Customer_create stripe) ;;
       save_update_fields customers with_customers
         (λ _, {| stripe_customer_id := new_id |}) customer.1 ;;;
       ret new_id
     else ret (stripe_customer_id customer.2)) ;;
  order <- get_or_set_order_session request ;;
  raw_total <- read (λ db, get_raw_total db order) ;;
  payment_intent <- lift (PaymentIntent_create stripe raw_total customer_id) ;;
  payment_record <- get_or_create order ;;
  (* payment_record.payment_intent_id = payment_intent["id"],  -- a tuple *)
  let assigned_id := str_of_tuple1 (intent_id payment_intent) in
  total <- read (λ db, get_total db order) ;;
  save_intent payment_record.1 assigned_id total ;;;
  cards <- lift (PaymentMethod_list stripe customer_id) ;;
  ret {| ctx_STRIPE_PUBLIC_KEY := STRIPE_PUBLIC_KEY;
         ctx_client_secret := client_secret payment_intent;
         ctx_payment_methods := card_entry <$> cards |}.

(** try: body except stripe.error.CardError as e: handler *)
Definition try_except_CardError {A} (body : M A) (handler : Exn + string → M A) : M A :=
  λ db, match body db with
        | (db', Raise (CardError read)) => handler read db'
        | r => r
        end.

Definition StripePaymentView_form_valid (stripe : Stripe) (request : Request)
    (selectedCard : string) : M Response :=
  let payment_method := selectedCard in
  (if decide (payment_method ≠ "newCard") then
     try_except_CardError
       (order <- get_or_set_order_session request ;;
        raw_total <- read (λ db, get_raw_total db order) ;;
        customer <- user_customer request ;;
        payment_intent <- lift (PaymentIntent_confirm stripe raw_total
                                  (stripe_customer_id customer.2) payment_method) ;;
        payment_record <- get_or_create order ;;
        total <- read (λ db, get_total db order) ;;
        save_intent payment_record.1 (intent_id payment_intent) total)
       (λ read, match read with
                | inr intent => lift (PaymentIntent_retrieve stripe intent)
                | inl e => lift (Raise e)
                end)
   else ret tt) ;;;
  ret (Redirect "/").
End StripePaymentView.

(** ** Sequences of additions *)

Section Sequences.
Context `{Scalars}.

Definition form_of (c s : string) (q : Z) : AddToCartForm :=
  {| form_colour := c; form_size := s; form_quantity := q |}.

(** One add_or_merge after the other, for one order, product, colour and
    size, with the quantities [qs]. *)
Fixpoint add_all (order product : Z) (c s : string) (qs : list Z) : M unit :=
  match qs with
  | [] => ret tt
  | q :: rest =>
      add_or_merge order product (form_of c s q) ;;;
      add_all order product c s rest
  end.

Definition total (qs : list Z) : Z := foldr Z.add 0 qs.

(** The items of one order. *)
Definition items_of (db : DB) (order : Z) : gmap Z OrderItem :=
  filter (λ row, item_order row.2 = order) (items db).

(** The item [pk] is in an open order of the user of the request. *)
Definition in_own_open_order (db : DB) (request : Request) (pk : Z) : Prop :=
  ∃ it o, items db !! pk = Some it ∧ orders db !! item_order it = Some o ∧
          ordered o = false ∧ order_user o = user request.
End Sequences.

(** ** The collaborators after the specification *)

Section SpecModels.
Context `{Scalars}.

Definition open_order_of (owner : option Z) (row : Z * Order) : Prop :=
  order_user row.2 = owner ∧ ordered row.2 = false.

#[global] Instance open_order_of_dec owner row : Decision (open_order_of owner row).
Proof. unfold open_order_of. apply _. Defined.

(** Modelled from the spec: cart/utils.py (get_or_set_order_session) is
    not among the sources.  Section 4.1: "If an open order exists for
    identity, return it; otherwise create one atomically and return it."
    The identity is the user of the request. *)
Definition resolve_open_order (request : Request) : M Z :=
  λ db, match first (filter (open_order_of (user request)) (orders db)) with
        | Some (pk, _) => (db, Done pk)
        | None =>
            let pk := new_pk (orders db) in
            let created := {| order_user := user request; ordered := false;
                              ordered_date := None |} in
            (with_orders db (<[pk := created]> (orders db)), Done pk)
        end.

Definition unit_price (db : DB) (it : OrderItem) : Z :=
  match products db !! item_product it with
  | Some p => price p
  | None => 0
  end.

(** Modelled from the spec: cart/models.py (Order.get_raw_total) is not
    among the sources.  Section 4.3: the sum of quantity * unit_price over
    the current items of the order. *)
Definition raw_total (db : DB) (order : Z) : Z :=
  map_fold (λ _ it acc,
              if decide (item_order it = order)
              then acc + quantity it * unit_price db it else acc)
           0 (items db).
End SpecModels.

(** ** A sample world: concrete collaborators and databases *)

Module Sample.
#[export] Instance scalars : Scalars := {| pyfloat := Z; money := Z * Z |}.

Definition digit (c : ascii) : option Z :=
  let n := Z.of_nat (Ascii.nat_of_ascii c) in
  if (48 <=? n) && (n <=? 57) then Some (n - 48) else None.

Fixpoint digits (acc : Z) (s : string) : option Z :=
  match s with
  | EmptyString => Some acc
  | String c rest => match digit c with
                     | Some d => digits (10 * acc + d) rest
                     | None => None
                     end
  end.

(** float(s) for the strings of decimal digits; every other string is
    refused in this world. *)
Definition float_of_digits (s : string) : option Z :=
  match s with
  | EmptyString => None
  | _ => digits 0 s
  end.

Definition quoted (s : string) : string :=
  String "034"%char s +:+ String "034"%char EmptyString.

Definition join (sep : string) (l : list string) : string :=
  match l with
  | [] => EmptyString
  | x :: rest => foldl (λ acc y, acc +:+ sep +:+ y) x rest
  end.

Fixpoint dumps (depth : nat) (j : json Z) : string :=
  match depth with
  | O => "..."
  | S depth =>
      match j with
      | JNull => "null"
      | JBool b => if b then "true" else "false"
      | JInt z => pretty z
      | JFloat f => pretty f +:+ ".0"
      | JStr s => quoted s
      | JArr l => "[" +:+ join ", " (dumps depth <$> l) +:+ "]"
      | JObj d =>
          "{" +:+ join ", " ((λ kv, quoted kv.1 +:+ ": " +:+ dumps depth kv.2)
                               <$> map_to_list d) +:+ "}"
      end
  end.

Definition capture (value : json Z) : json Z :=
  JObj {[ "purchase_units" := JArr [JObj {[ "amount" := JObj {[ "value" := value ]} ]}] ]}.

(** The bodies this world decodes: a capture of 10, the same capture after
    a leading space, a capture whose value is null and a capture whose
    value is the integer 10 ** 400. *)
Definition paid_body : string := dumps 8 (capture (JStr "10")).
Definition spaced_body : string := " " +:+ paid_body.
Definition null_body : string := dumps 8 (capture JNull).
Definition huge_body : string := dumps 8 (capture (JInt (10 ^ 400))).

Definition loads (s : string) : outcome (json Z) :=
  if decide (s = paid_body) then Done (capture (JStr "10"))
  else if decide (s = spaced_body) then Done (capture (JStr "10"))
  else if decide (s = null_body) then Done (capture JNull)
  else if decide (s = huge_body) then Done (capture (JInt (10 ^ 400)))
  else Raise ValueError.

(** float(n) for an int: OverflowError beyond the range of a double. *)
Definition float_of_small (z : Z) : option Z :=
  if Z.abs z <? 2 ^ 1024 then Some z else None.

Fixpoint split_space (s : string) : option (string * string) :=
  match s with
  | EmptyString => None
  | String c rest =>
      if Ascii.eqb c " "%char then Some (EmptyString, rest)
      else match split_space rest with
           | Some (a, b) => Some (String c a, b)
           | None => None
           end
  end.

(** The signature is good when it is the secret.  A signed payload is the
    event kind, a space and the intent identifier; the signed payload {}
    is an event with no type and no data, and on the signed payload []
    the constructor itself raises AttributeError. *)
Definition construct (payload sig_header secret : string) : outcome Event :=
  if decide (sig_header = secret) then
    if decide (payload = "{}") then
      Done {| event_type := None; data_object_id := Raise AttributeError |}
    else if decide (payload = "[]") then Raise AttributeError
    else match split_space payload with
         | None => Raise ValueError
         | Some (kind, id) =>
             Done {| event_type := Some (JStr kind); data_object_id := Done (JStr id) |}
         end
  else Raise SignatureVerificationError.

#[export] Instance world : Collaborators := {|
  get_or_set_order_session := resolve_open_order;
  get_raw_total := raw_total;
  get_total := λ db order, (raw_total db order / 100, raw_total db order mod 100);
  json_loads := loads;
  json_dumps := dumps 100;
  float_of_str := float_of_digits;
  float_of_int := float_of_small;
  float_of_bool := λ b, if b then 1 else 0;
  py_str := dumps 100;
  construct_event := construct;
  STRIPE_WEBHOOK_SECRET := "whsec_test";
  STRIPE_PUBLIC_KEY := "pk_test";
|}.
End Sample.

Module Fixtures.
Import Sample.

Definition alice : Request :=
  {| user := Some 1; body := EmptyString; HTTP_STRIPE_SIGNATURE := None |}.

Definition bob : Request :=
  {| user := Some 2; body := EmptyString; HTTP_STRIPE_SIGNATURE := None |}.

Definition shirt_form (q : Z) : AddToCartForm :=
  {| form_colour := "red"; form_size := "M"; form_quantity := q |}.

Definition open_order (owner : Z) : Order :=
  {| order_user := Some owner; ordered := false; ordered_date := None |}.

Definition placed_order (owner : Z) (stamp : Stamp) : Order :=
  {| order_user := Some owner; ordered := true; ordered_date := Some stamp |}.

Definition shirts (q : Z) : OrderItem :=
  {| item_order := 1; item_product := 7; colour := "red"; size := "M"; quantity := q |}.

Definition record (id : string) (paid : bool) : StripePayment :=
  {| sp_order := 1; payment_intent_id := id; sp_amount := Some (20, 0);
     successful := paid |}.

(** Alice's cart: order 1 holds two red M shirts (item 10) and has the
    payment record 5 for the intent pi_123. *)
Definition cart : DB :=
  {| orders := {[ 1 := open_order 1 ]};
     items := {[ 10 := shirts 2 ]};
     products := {[ 7 := {| slug := "shirt"; price := 1000 |} ]};
     stripe_payments := {[ 5 := record "pi_123" false ]};
     payments := [];
     customers := {[ 1 := {| stripe_customer_id := "cus_1" |} ]} |}.

(** The same database once order 1 was placed at time 100. *)
Definition receipt : DB :=
  {| orders := {[ 1 := placed_order 1 (DateTime 100) ]};
     items := {[ 10 := shirts 2 ]};
     products := {[ 7 := {| slug := "shirt"; price := 1000 |} ]};
     stripe_payments := {[ 5 := record "pi_123" true ]};
     payments := [];
     customers := {[ 1 := {| stripe_customer_id := "cus_1" |} ]} |}.

(** An empty cart for Alice. *)
Definition empty_cart : DB :=
  {| orders := {[ 1 := open_order 1 ]};
     items := ∅;
     products := {[ 7 := {| slug := "shirt"; price := 1000 |} ]};
     stripe_payments := ∅;
     payments := [];
     customers := {[ 1 := {| stripe_customer_id := "cus_1" |} ]} |}.

Definition webhook (payload : string) (signature : option string) : Request :=
  {| user := None; body := payload; HTTP_STRIPE_SIGNATURE := signature |}.

(** The signed event that the payment of the intent [id] succeeded. *)
Definition succeeded (id : string) : Request :=
  webhook ("payment_intent.succeeded " +:+ id) (Some "whsec_test").

Definition callback (payload : string) : Request :=
  {| user := Some 1; body := payload; HTTP_STRIPE_SIGNATURE := None |}.

Definition noon : Clock := {| today := 20; now := 200 |}.

(** The processor answering with the intent pi_456. *)
Definition processor : Stripe :=
  {| Customer_create := Done "cus_new";
     PaymentIntent_create := λ _ _,
       Done {| intent_id := "pi_456"; client_secret := "pi_456_secret" |};
     PaymentIntent_confirm := λ _ _ _,
       Done {| intent_id := "pi_456"; client_secret := "pi_456_secret" |};
     PaymentIntent_retrieve := λ _, Done tt;
     PaymentMethod_list := λ _, Done [] |}.
End Fixtures.

(** ** Repeated requests and the cart invariant *)

Section Repeats.
Context `{Scalars}.

(** The decrease view requested [n] times for one item; the first request
    that fails ends the run. *)
Fixpoint decrease_times (n : nat) (request : Request) (pk : Z) : M unit :=
  match n with
  | O => ret tt
  | S n => DecreaseQuantityView_get request pk ;;; decrease_times n request pk
  end.

(** No item has a quantity below 1. *)
Definition positive_quantities (db : DB) : Prop :=
  ∀ pk it, items db !! pk = Some it → 1 ≤ quantity it.

(** The payment records of one order. *)
Definition records_of (db : DB) (order : Z) : gmap Z StripePayment :=
  filter (order_is order) (stripe_payments db).
End Repeats.

(** ** The payment page once the customer identity is known *)

Section PageBody.
Context `{Scalars} `{!Collaborators}.

(** StripePaymentView.get_context_data from the session lookup on, for the
    processor identity [customer_id]. *)
Definition page_for_identity (stripe : Stripe) (request : Request)
    (customer_id : string) : M TemplateContext :=
  order <- get_or_set_order_session request ;;
  raw_total <- read (λ db, get_raw_total db order) ;;
  payment_intent <- lift (PaymentIntent_create stripe raw_total customer_id) ;;
  payment_record <- get_or_create order ;;
  let assigned_id := str_of_tuple1 (intent_id payment_intent) in
  total <- read (λ db, get_total db order) ;;
  save_intent payment_record.1 assigned_id total ;;;
  cards <- lift (PaymentMethod_list stripe customer_id) ;;
  ret {| ctx_STRIPE_PUBLIC_KEY := STRIPE_PUBLIC_KEY;
         ctx_client_secret := client_secret payment_intent;
         ctx_payment_methods := card_entry <$> cards |}.
End PageBody.

(** ** The settings module (ecom/settings.py) *)

Module Settings.

(** The values DEBUG is compared with: env() hands back a str, the test is
    an identity test against the bool False. *)
Inductive pyvalue : Type :=
| PyStr (s : string)
| PyBool (b : bool).

(** [v is False] *)
Definition is_False (v : pyvalue) : bool :=
  match v with
  | PyBool false => true
  | _ => false
  end.

(** The names the module binds; the security names are bound in the
    production block only ([None]: not bound). *)
Record Settings : Type := {
  SECRET_KEY : string;
  DEBUG : pyvalue;
  ALLOWED_HOSTS : list string;
  EMAIL_BACKEND : string;
  DEFAULT_FROM_EMAIL : string;
  NOTIFY_EMAIL : string;
  DATABASE_ENGINE : string;
  PAYPAL_CLIENT_ID : string;
  PAYPAL_SECRET_KEY : string;
  STRIPE_PUBLIC_KEY : string;
  STRIPE_SECRET_KEY : string;
  STRIPE_WEBHOOK_SECRET : string;
  SESSION_COOKIE_SECURE : option bool;
  SECURE_SSL_REDIRECT : option bool;
  SECURE_HSTS_SECONDS : option Z;
}.

(** env = environ.Env(), without a scheme: env(name) is the str env()
    returns for the variable, and [None] when the call raises
    ImproperlyConfigured: the variable is not set, or its value starts
    with $ and names a variable that is not set. *)
Definition Env : Type := string → option string.

(** The production block: what [if DEBUG is False] rebinds. *)
Definition production (env : Env) (s : Settings) : option Settings :=
  live_id ← env "PAYPAL_LIVE_CLIENT_ID";
  live_key ← env "PAYPAL_LIVE_SECRET_KEY";
  Some {| SECRET_KEY := SECRET_KEY s; DEBUG := DEBUG s;
          ALLOWED_HOSTS := ["www.domain.com"];
          EMAIL_BACKEND := "django.core.mail.backends.smtp.EmailBackend";
          DEFAULT_FROM_EMAIL := DEFAULT_FROM_EMAIL s; NOTIFY_EMAIL := NOTIFY_EMAIL s;
          DATABASE_ENGINE := "django.db.backends.postgresql_psycopg2";
          PAYPAL_CLIENT_ID := live_id; PAYPAL_SECRET_KEY := live_key;
          STRIPE_PUBLIC_KEY := STRIPE_PUBLIC_KEY s;
          STRIPE_SECRET_KEY := STRIPE_SECRET_KEY s;
          STRIPE_WEBHOOK_SECRET := STRIPE_WEBHOOK_SECRET s;
          SESSION_COOKIE_SECURE := Some true;
          SECURE_SSL_REDIRECT := Some true;
          SECURE_HSTS_SECONDS := Some 31536000 |}.

(** The module from top to bottom: [None] when an env() call raises. *)
Definition load (env : Env) : option Settings :=
  secret_key ← env "SECRET_KEY";
  debug ← env "DEBUG";
  from_email ← env "DEFAULT_FROM_EMAIL";
  notify_email ← env "NOTIFY_EMAIL";
  paypal_id ← env "PAYPAL_SANDBOX_CLIENT_ID";
  paypal_key ← env "PAYPAL_SANDBOX_SECRET_KEY";
  stripe_public ← env "STRIPE_PUBLIC_KEY";
  stripe_secret ← env "STRIPE_SECRET_KEY";
  stripe_webhook ← env "STRIPE_WEBHOOK_SECRET";
  let s := {| SECRET_KEY := secret_key; DEBUG := PyStr debug;
              ALLOWED_HOSTS := ["*"];
              EMAIL_BACKEND := "django.core.mail.backends.console.EmailBackend";
              DEFAULT_FROM_EMAIL := from_email; NOTIFY_EMAIL := notify_email;
              DATABASE_ENGINE := "django.db.backends.sqlite3";
              PAYPAL_CLIENT_ID := paypal_id; PAYPAL_SECRET_KEY := paypal_key;
              STRIPE_PUBLIC_KEY := stripe_public;
              STRIPE_SECRET_KEY := stripe_secret;
              STRIPE_WEBHOOK_SECRET := stripe_webhook;
              SESSION_COOKIE_SECURE := None;
              SECURE_SSL_REDIRECT := None;
              SECURE_HSTS_SECONDS := None |} in
  if is_False (DEBUG s) then production env s else Some s.

(** A deployment that means production: DEBUG is set to the text False and
    the live PayPal variables are absent. *)
Definition deployed : gmap string string :=
  list_to_map
    [("SECRET_KEY", "s3cret"); ("DEBUG", "False");
     ("DEFAULT_FROM_EMAIL", "shop@example.com"); ("NOTIFY_EMAIL", "ops@example.com");
     ("PAYPAL_SANDBOX_CLIENT_ID", "sb_id"); ("PAYPAL_SANDBOX_SECRET_KEY", "sb_key");
     ("STRIPE_PUBLIC_KEY", "pk_test"); ("STRIPE_SECRET_KEY", "sk_test");
     ("STRIPE_WEBHOOK_SECRET", "whsec_test")].
End Settings.

(** ** More sample databases and processors *)

Module Scenarios.
Import Sample Fixtures.

(** Two payment records that hold the same intent identifier. *)
Definition twins : DB :=
  {| orders := {[ 1 := open_order 1 ]};
     items := {[ 10 := shirts 2 ]};
     products := {[ 7 := {| slug := "shirt"; price := 1000 |} ]};
     stripe_payments := {[ 5 := record "pi_123" false; 6 := record "pi_123" false ]};
     payments := [];
     customers := {[ 1 := {| stripe_customer_id := "cus_1" |} ]} |}.

(** Alice before her first payment page: a cart, no payment record, and no
    processor identity yet. *)
Definition newcomer : DB :=
  {| orders := {[ 1 := open_order 1 ]};
     items := {[ 10 := shirts 2 ]};
     products := {[ 7 := {| slug := "shirt"; price := 1000 |} ]};
     stripe_payments := ∅;
     payments := [];
     customers := {[ 1 := {| stripe_customer_id := EmptyString |} ]} |}.


(** The processor declining the saved card. *)
Definition declining : Stripe :=
  {| Customer_create := Done "cus_new";
     PaymentIntent_create := λ _ _,
       Done {| intent_id := "pi_456"; client_secret := "pi_456_secret" |};
     PaymentIntent_confirm := λ _ _ _, Raise (CardError (inr "pi_789"));
     PaymentIntent_retrieve := λ _, Done tt;
     PaymentMethod_list := λ _, Done [] |}.

(** The processor declining the saved card with an error that names no
    intent: err.payment_intent is None, and subscripting it raises
    TypeError. *)
Definition blocking : Stripe :=
  {| Customer_create := Done "cus_new";
     PaymentIntent_create := λ _ _,
       Done {| intent_id := "pi_456"; client_secret := "pi_456_secret" |};
     PaymentIntent_confirm := λ _ _ _, Raise (CardError (inl TypeError));
     PaymentIntent_retrieve := λ _, Done tt;
     PaymentMethod_list := λ _, Done [] |}.

Definition blue_form : AddToCartForm :=
  {| form_colour := "blue"; form_size := "L"; form_quantity := 1 |}.

Definition anonymous : Request :=
  {| user := None; body := EmptyString; HTTP_STRIPE_SIGNATURE := None |}.
End Scenarios.

(** * Properties *)

(** ** Queries *)

Section QueryFacts.
Context `{Scalars}.

Lemma first_singleton {A} (pk : Z) (row : A) :
  first ({[ pk := row ]} : gmap Z A) = Some (pk, row).
Proof. unfold first. by rewrite map_to_list_singleton. Qed.

Lemma filter_unique {A} (P : Z * A → Prop) `{∀ x, Decision (P x)}
    (m : gmap Z A) (pk : Z) (row : A) :
  m !! pk = Some row → P (pk, row) →
  (∀ pk' row', m !! pk' = Some row' → P (pk', row') → pk' = pk) →
  filter P m = {[ pk := row ]}.
Proof.
  intros Hrow HP Huniq. apply map_eq. intros k.
  destruct (decide (k = pk)) as [->|Hne].
  - rewrite lookup_singleton_eq. by apply map_lookup_filter_Some.
  - rewrite lookup_singleton_ne by done.
    apply map_lookup_filter_None. right. intros row' Hrow' HP'.
    apply Hne. eauto.
Qed.

Lemma filter_none {A} (P : Z * A → Prop) `{∀ x, Decision (P x)} (m : gmap Z A) :
  (∀ pk row, m !! pk = Some row → ¬ P (pk, row)) → filter P m = ∅.
Proof.
  intros Hnone. apply map_empty. intros k.
  apply map_lookup_filter_None. right. intros row Hrow. by apply Hnone.
Qed.

(** get returns the row when exactly one row passes the filter. *)
Lemma objects_get_unique {A} (table : DB → gmap Z A) (P : Z * A → Prop)
    `{∀ x, Decision (P x)} (db : DB) (pk : Z) (row : A) :
  table db !! pk = Some row → P (pk, row) →
  (∀ pk' row', table db !! pk' = Some row' → P (pk', row') → pk' = pk) →
  objects_get table P db = (db, Done (pk, row)).
Proof.
  intros Hrow HP Huniq. unfold objects_get.
  by rewrite (filter_unique P _ pk row), map_to_list_singleton.
Qed.

(** get raises DoesNotExist when no row passes the filter. *)
Lemma objects_get_none {A} (table : DB → gmap Z A) (P : Z * A → Prop)
    `{∀ x, Decision (P x)} (db : DB) :
  (∀ pk row, table db !! pk = Some row → ¬ P (pk, row)) →
  objects_get table P db = (db, Raise DoesNotExist).
Proof.
  intros Hnone. unfold objects_get.
  by rewrite (filter_none P), map_to_list_empty.
Qed.

(** get never writes. *)
Lemma objects_get_reads {A} (table : DB → gmap Z A) (P : Z * A → Prop)
    `{∀ x, Decision (P x)} (db : DB) :
  (objects_get table P db).1 = db.
Proof. unfold objects_get. by repeat case_match. Qed.

Lemma new_pk_fresh {A} (m : gmap Z A) : m !! new_pk m = None.
Proof. apply not_elem_of_dom. apply is_fresh. Qed.

(** Changing the row under a key that is there is storing the changed
    row. *)
Lemma alter_as_insert {A} (f : A → A) (m : gmap Z A) (pk : Z) (row : A) :
  m !! pk = Some row → alter f pk m = <[pk := f row]> m.
Proof.
  intros Hrow. apply map_eq. intros k. destruct (decide (k = pk)) as [->|Hne].
  - by rewrite lookup_alter_eq, lookup_insert_eq, Hrow.
  - by rewrite lookup_alter_ne, lookup_insert_ne.
Qed.

Lemma with_items_items (db : DB) : with_items db (items db) = db.
Proof. by destruct db. Qed.
End QueryFacts.

(** ** The line-item ledger *)

Section LineItemFacts.
Context `{Scalars}.

Lemma item_filter_with_items (db : DB) (m : gmap Z OrderItem) order product c s :
  item_filter (with_items db m) order product c s = filter (matches order product c s) m.
Proof. reflexivity. Qed.

(** With no matching item, the add saves the item of the form under a new
    pk, and it is then the only match. *)
Lemma add_creates (db : DB) (order product : Z) (c s : string) (q : Z) :
  item_filter db order product c s = ∅ →
  let created := form_save (form_of c s q) order product in
  let db' := with_items db (<[new_pk (items db) := created]> (items db)) in
  add_or_merge order product (form_of c s q) db = (db', Done tt) ∧
  item_filter db' order product c s = {[ new_pk (items db) := created ]}.
Proof.
  intros Hnone created db'. split.
  - unfold add_or_merge. cbn [form_colour form_size form_of].
    rewrite Hnone. by rewrite decide_True.
  - unfold db'. rewrite item_filter_with_items.
    rewrite map_filter_insert_True by (by unfold matches, created).
    fold (item_filter db order product c s). rewrite Hnone. apply insert_empty.
Qed.

(** With one matching item, the add saves that item with the quantity of
    the form added, and it stays the only match. *)
Lemma add_merges (db : DB) (order product : Z) (c s : string) (q pk : Z) (it : OrderItem) :
  item_filter db order product c s = {[ pk := it ]} →
  let merged := set_quantity (quantity it + q) it in
  let db' := with_items db (<[pk := merged]> (items db)) in
  add_or_merge order product (form_of c s q) db = (db', Done tt) ∧
  item_filter db' order product c s = {[ pk := merged ]}.
Proof.
  intros Hone merged db'. split.
  - unfold add_or_merge. cbn [form_colour form_size form_quantity form_of].
    rewrite Hone, decide_False by apply insert_non_empty.
    by rewrite first_singleton.
  - assert (matches order product c s (pk, it)) as Hm.
    { assert (item_filter db order product c s !! pk = Some it) as Hin
        by (rewrite Hone; apply lookup_singleton_eq).
      by apply map_lookup_filter_Some in Hin as [_ ?]. }
    unfold db'. rewrite item_filter_with_items.
    rewrite map_filter_insert_True by exact Hm.
    fold (item_filter db order product c s). rewrite Hone.
    apply insert_singleton_eq.
Qed.

Lemma add_all_merges (order product : Z) (c s : string) (qs : list Z) :
  ∀ (db : DB) (pk : Z) (it : OrderItem),
    item_filter db order product c s = {[ pk := it ]} →
    (add_all order product c s qs db).2 = Done tt ∧
    ∃ it', item_filter (add_all order product c s qs db).1 order product c s
             = {[ pk := it' ]} ∧
           quantity it' = quantity it + total qs.
Proof.
  induction qs as [|q qs IH]; intros db pk it Hone.
  - split; [done|]. exists it. split; [done|]. unfold total. cbn [foldr]. lia.
  - destruct (add_merges db order product c s q pk it Hone) as [Hrun Hnext].
    cbn [add_all]. unfold bind. rewrite Hrun.
    destruct (IH _ _ _ Hnext) as [Hdone (it' & Hfilter & Hq)].
    split; [done|]. exists it'. split; [done|].
    rewrite Hq. unfold total. cbn [foldr set_quantity quantity]. lia.
Qed.

(** When the only item of the combination is the row [pk], with the
    quantity [q], the adds leave the table as it was but for that row,
    which then holds q plus the quantities added. *)
Lemma add_all_exact (order product : Z) (c s : string) (qs : list Z) :
  ∀ (db : DB) (pk q : Z),
    items db !! pk = Some {| item_order := order; item_product := product;
                             colour := c; size := s; quantity := q |} →
    (∀ k i, items db !! k = Some i → matches order product c s (k, i) → k = pk) →
    add_all order product c s qs db =
      (with_items db (<[pk := {| item_order := order; item_product := product;
                                 colour := c; size := s; quantity := q + total qs |}]>
                        (items db)), Done tt).
Proof.
  induction qs as [|a qs IH]; intros db pk q Hit Huniq.
  - cbn [add_all]. unfold ret, total. cbn [foldr].
    rewrite Z.add_0_r, insert_id by done. by rewrite with_items_items.
  - assert (item_filter db order product c s
              = {[ pk := {| item_order := order; item_product := product;
                            colour := c; size := s; quantity := q |} ]}) as Hone.
    { apply filter_unique; [done|by unfold matches|done]. }
    destruct (add_merges db order product c s a pk _ Hone) as [Hrun _].
    cbn [add_all]. unfold bind. rewrite Hrun.
    rewrite (IH _ pk (q + a)).
    + cbn [items with_items set_quantity item_order item_product colour size quantity].
      rewrite insert_insert_eq. unfold total. cbn [foldr].
      by rewrite Z.add_assoc.
    + cbn [items with_items]. by rewrite lookup_insert_eq.
    + cbn [items with_items]. intros k i Hk Hm.
      destruct (decide (k = pk)) as [|Hne]; [done|].
      rewrite lookup_insert_ne in Hk by done. eauto.
Qed.

(** C3. On an order that holds no item of a product, colour and size, any
    sequence q, qs of add_or_merge calls for that combination succeeds;
    the first call, which finds no match, stores the item of the form,
    with the requested quantity q, under a pk that no item had, and the
    whole sequence leaves the table as it was but for that one row, whose
    quantity is the sum of the requested quantities; it is the only item
    of the combination.  (The fields of the created item are those of
    form_save.) *)
Theorem add_or_merge_sums (db : DB) (order product : Z) (c s : string)
    (q : Z) (qs : list Z) :
  (∀ pk it, items db !! pk = Some it →
     ¬ (item_order it = order ∧ item_product it = product ∧
        colour it = c ∧ size it = s)) →
  ∃ pk,
    items db !! pk = None ∧
    add_or_merge order product (form_of c s q) db =
      (with_items db (<[pk := {| item_order := order; item_product := product;
                                 colour := c; size := s; quantity := q |}]>
                        (items db)), Done tt) ∧
    add_all order product c s (q :: qs) db =
      (with_items db (<[pk := {| item_order := order; item_product := product;
                                 colour := c; size := s;
                                 quantity := total (q :: qs) |}]>
                        (items db)), Done tt) ∧
    ∀ k it, items (add_all order product c s (q :: qs) db).1 !! k = Some it →
      item_order it = order → item_product it = product →
      colour it = c → size it = s →
      k = pk ∧ quantity it = total (q :: qs).
Proof.
  intros Hnone.
  assert (item_filter db order product c s = ∅) as Hempty.
  { apply filter_none. intros pk it Hit Hm. exact (Hnone pk it Hit Hm). }
  destruct (add_creates db order product c s q Hempty) as [Hrun _].
  assert (add_all order product c s (q :: qs) db =
      (with_items db (<[new_pk (items db) :=
                          {| item_order := order; item_product := product;
                             colour := c; size := s;
                             quantity := total (q :: qs) |}]>
                        (items db)), Done tt)) as Hall.
  { cbn [add_all]. unfold bind. rewrite Hrun.
    rewrite (add_all_exact order product c s qs _ (new_pk (items db)) q).
    - cbn [items with_items]. by rewrite insert_insert_eq.
    - cbn [items with_items]. by rewrite lookup_insert_eq.
    - cbn [items with_items]. intros k i Hk Hm.
      destruct (decide (k = new_pk (items db))) as [|Hne]; [done|].
      rewrite lookup_insert_ne in Hk by done.
      destruct (Hnone k i Hk Hm). }
  exists (new_pk (items db)). split; [apply new_pk_fresh|].
  split; [exact Hrun|]. split; [exact Hall|].
  rewrite Hall. cbn [fst items with_items].
  intros k it Hk Ho Hp Hc Hs.
  destruct (decide (k = new_pk (items db))) as [->|Hne].
  - rewrite lookup_insert_eq in Hk. by injection Hk as <-.
  - rewrite lookup_insert_ne in Hk by done.
    destruct (Hnone k it Hk). by repeat split.
Qed.

Lemma decrease_runs (request : Request) (pk : Z) (it : OrderItem) (db : DB) :
  items db !! pk = Some it →
  DecreaseQuantityView_get request pk db =
    (with_items db (if quantity it <=? 1 then delete pk (items db)
                    else alter (set_quantity (quantity it - 1)) pk (items db)),
     Done (Redirect "cart:summary")).
Proof.
  intros Hit. unfold DecreaseQuantityView_get, bind, get_object_or_404_id.
  rewrite Hit. destruct (quantity it <=? 1); [done|].
  unfold save_quantity, save_update_fields. by rewrite Hit.
Qed.

(** C4. decrease of an existing item redirects to the cart; it deletes the
    item when its quantity is 1 (or less), and when the quantity is at
    least 2 it keeps the item, with the same order, product, colour and
    size and the quantity one lower; the item is never left with a
    quantity below 1, every other item is untouched, and so a table
    without quantities below 1 stays one. *)
Theorem decrease_quantity (request : Request) (pk : Z) (it : OrderItem) (db : DB) :
  items db !! pk = Some it →
  let r := DecreaseQuantityView_get request pk db in
  r.2 = Done (Redirect "cart:summary") ∧
  (quantity it ≤ 1 → items r.1 !! pk = None) ∧
  (2 ≤ quantity it →
   items r.1 !! pk = Some {| item_order := item_order it;
                             item_product := item_product it;
                             colour := colour it; size := size it;
                             quantity := quantity it - 1 |}) ∧
  (∀ it', items r.1 !! pk = Some it' → 1 ≤ quantity it') ∧
  (∀ pk', pk' ≠ pk → items r.1 !! pk' = items db !! pk') ∧
  ((∀ k i, items db !! k = Some i → 1 ≤ quantity i) →
   ∀ k i, items r.1 !! k = Some i → 1 ≤ quantity i).
Proof.
  intros Hit r. unfold r. rewrite (decrease_runs request pk it db Hit).
  cbn [fst snd].
  assert (∀ pk', pk' ≠ pk →
            items (with_items db (if quantity it <=? 1 then delete pk (items db)
                                  else alter (set_quantity (quantity it - 1)) pk (items db)))
              !! pk' = items db !! pk') as Hother.
  { intros pk' Hne. destruct (quantity it <=? 1); cbn.
    - by apply lookup_delete_ne.
    - by apply lookup_alter_ne. }
  assert (∀ it', items (with_items db (if quantity it <=? 1 then delete pk (items db)
                                  else alter (set_quantity (quantity it - 1)) pk (items db)))
              !! pk = Some it' → 1 ≤ quantity it') as Hself.
  { intros it'. destruct (Z.leb_spec (quantity it) 1); cbn.
    - by rewrite lookup_delete_eq.
    - rewrite lookup_alter_eq, Hit. cbn. intros [= <-]. cbn. lia. }
  split; [done|]. split; [|split; [|split; [|split]]].
  - intros Hq. destruct (Z.leb_spec (quantity it) 1); [|lia].
    cbn. apply lookup_delete_eq.
  - intros Hq. destruct (Z.leb_spec (quantity it) 1); [lia|].
    cbn. by rewrite lookup_alter_eq, Hit.
  - exact Hself.
  - exact Hother.
  - intros Hpos k i Hi. destruct (decide (k = pk)) as [->|Hne].
    + by apply Hself.
    + rewrite Hother in Hi by done. eauto.
Qed.

(** The add view is add_or_merge on the order of the session and the
    product of the slug. *)
Lemma form_valid_adds `{!Collaborators} (request : Request) (kwargs_slug : string)
    (form : AddToCartForm) (db db1 : DB) (order : Z) (product : Z * Product) :
  get_or_set_order_session request db = (db1, Done order) →
  get_object kwargs_slug db1 = (db1, Done product) →
  ProductDetailView_form_valid request kwargs_slug form db =
    ((add_or_merge order product.1 form db1).1,
     match (add_or_merge order product.1 form db1).2 with
     | Done _ => Done (Redirect "cart:summary")
     | Raise e => Raise e
     end).
Proof.
  intros Hsession Hproduct.
  unfold ProductDetailView_form_valid, bind at 1. rewrite Hsession.
  unfold bind at 1. rewrite Hproduct. unfold bind, ret.
  by destruct (add_or_merge order product.1 form db1) as [db2 [[]|e]].
Qed.
End LineItemFacts.

(** ** Who may change which item *)

Section OwnershipFacts.
Context `{Scalars}.

Lemma lower_key_elem {A} (l : list (Z * A)) (x : Z * A) :
  foldr lower_key None l = Some x → x ∈ l.
Proof.
  revert x. induction l as [|y l IH]; intros x; cbn [foldr]; [done|].
  unfold lower_key at 1. destruct (foldr lower_key None l) as [z|].
  - destruct (y.1 <? z.1); intros [= <-].
    + apply list_elem_of_here.
    + apply list_elem_of_further. by apply IH.
  - intros [= <-]. apply list_elem_of_here.
Qed.

(** first() returns a row of the queryset. *)
Lemma first_lookup {A} (m : gmap Z A) (pk : Z) (row : A) :
  first m = Some (pk, row) → m !! pk = Some row.
Proof. intros Hfirst. by apply elem_of_map_to_list, lower_key_elem. Qed.

Lemma increase_runs (request : Request) (pk : Z) (it : OrderItem) (db : DB) :
  items db !! pk = Some it →
  IncreaseQuantityView_get request pk db =
    (with_items db (alter (set_quantity (quantity it + 1)) pk (items db)),
     Done (Redirect "cart:summary")).
Proof.
  intros Hit. unfold IncreaseQuantityView_get, bind, get_object_or_404_id.
  rewrite Hit. unfold save_quantity, save_update_fields. by rewrite Hit.
Qed.

Lemma remove_runs (request : Request) (pk : Z) (it : OrderItem) (db : DB) :
  items db !! pk = Some it →
  RemoveFromCartView_get request pk db =
    (with_items db (delete pk (items db)), Done (Redirect "cart:summary")).
Proof.
  intros Hit. unfold RemoveFromCartView_get, bind, get_object_or_404_id.
  by rewrite Hit.
Qed.

(** The three views on an id, case by case. *)
Lemma item_views_run (request : Request) (pk : Z) (db : DB) :
  match items db !! pk with
  | None =>
      IncreaseQuantityView_get request pk db = (db, Raise Http404) ∧
      DecreaseQuantityView_get request pk db = (db, Raise Http404) ∧
      RemoveFromCartView_get request pk db = (db, Raise Http404)
  | Some it =>
      IncreaseQuantityView_get request pk db =
        (with_items db (alter (set_quantity (quantity it + 1)) pk (items db)),
         Done (Redirect "cart:summary")) ∧
      DecreaseQuantityView_get request pk db =
        (with_items db (if quantity it <=? 1 then delete pk (items db)
                        else alter (set_quantity (quantity it - 1)) pk (items db)),
         Done (Redirect "cart:summary")) ∧
      RemoveFromCartView_get request pk db =
        (with_items db (delete pk (items db)), Done (Redirect "cart:summary"))
  end.
Proof.
  destruct (items db !! pk) as [it|] eqn:Hit.
  - split; [|split];
      [by apply increase_runs | by apply decrease_runs | by eapply remove_runs].
  - unfold IncreaseQuantityView_get, DecreaseQuantityView_get,
      RemoveFromCartView_get, bind, get_object_or_404_id.
    by rewrite Hit.
Qed.

(** The three views on an id that is there, with the table they leave
    written out. *)
Lemma item_views_change (request : Request) (pk : Z) (it : OrderItem) (db : DB) :
  items db !! pk = Some it →
  IncreaseQuantityView_get request pk db =
    (with_items db (<[pk := {| item_order := item_order it;
                               item_product := item_product it;
                               colour := colour it; size := size it;
                               quantity := quantity it + 1 |}]> (items db)),
     Done (Redirect "cart:summary")) ∧
  DecreaseQuantityView_get request pk db =
    (with_items db
       (if quantity it <=? 1 then delete pk (items db)
        else <[pk := {| item_order := item_order it;
                        item_product := item_product it;
                        colour := colour it; size := size it;
                        quantity := quantity it - 1 |}]> (items db)),
     Done (Redirect "cart:summary")) ∧
  RemoveFromCartView_get request pk db =
    (with_items db (delete pk (items db)), Done (Redirect "cart:summary")).
Proof.
  intros Hit. pose proof (item_views_run request pk db) as Hrun.
  rewrite Hit in Hrun. destruct Hrun as (-> & -> & ->).
  rewrite !(alter_as_insert _ _ _ _ Hit). done.
Qed.

(** C5, as the views have it. increase, decrease and remove look the item up
    by its id alone.  They fail with Http404, writing nothing, exactly when
    no item has the id.  When an item has the id, whichever order it
    belongs to and whoever calls, increase stores it with the quantity one
    higher, decrease deletes it when its quantity is 1 or less and stores
    it with the quantity one lower otherwise, and remove deletes it; each
    redirects to the cart and leaves every other row as it was.  What the
    views do is the same for every caller. *)
Theorem item_views_by_id (request other : Request) (pk : Z) (db : DB) :
  (items db !! pk = None →
   IncreaseQuantityView_get request pk db = (db, Raise Http404) ∧
   DecreaseQuantityView_get request pk db = (db, Raise Http404) ∧
   RemoveFromCartView_get request pk db = (db, Raise Http404)) ∧
  (∀ it, items db !! pk = Some it →
   IncreaseQuantityView_get request pk db =
     (with_items db (<[pk := {| item_order := item_order it;
                                item_product := item_product it;
                                colour := colour it; size := size it;
                                quantity := quantity it + 1 |}]> (items db)),
      Done (Redirect "cart:summary")) ∧
   DecreaseQuantityView_get request pk db =
     (with_items db
        (if quantity it <=? 1 then delete pk (items db)
         else <[pk := {| item_order := item_order it;
                         item_product := item_product it;
                         colour := colour it; size := size it;
                         quantity := quantity it - 1 |}]> (items db)),
      Done (Redirect "cart:summary")) ∧
   RemoveFromCartView_get request pk db =
     (with_items db (delete pk (items db)), Done (Redirect "cart:summary")) ∧
   (IncreaseQuantityView_get request pk db).1 ≠ db ∧
   (DecreaseQuantityView_get request pk db).1 ≠ db ∧
   (RemoveFromCartView_get request pk db).1 ≠ db) ∧
  IncreaseQuantityView_get request pk db = IncreaseQuantityView_get other pk db ∧
  DecreaseQuantityView_get request pk db = DecreaseQuantityView_get other pk db ∧
  RemoveFromCartView_get request pk db = RemoveFromCartView_get other pk db.
Proof.
  split; [|split].
  - intros Hit. pose proof (item_views_run request pk db) as Hrun.
    by rewrite Hit in Hrun.
  - intros it Hit.
    destruct (item_views_change request pk it db Hit) as (Hinc & Hdec & Hrem).
    split; [done|]. split; [done|]. split; [done|].
    rewrite Hinc, Hdec, Hrem. cbn [fst].
    split; [|split]; intros Hsame; apply (f_equal (λ d, items d !! pk)) in Hsame;
      cbn [items with_items] in Hsame; rewrite Hit in Hsame.
    + rewrite lookup_insert_eq in Hsame. injection Hsame as Hq.
      apply (f_equal quantity) in Hq. cbn in Hq. lia.
    + destruct (quantity it <=? 1).
      * by rewrite lookup_delete_eq in Hsame.
      * rewrite lookup_insert_eq in Hsame. injection Hsame as Hq.
        apply (f_equal quantity) in Hq. cbn in Hq. lia.
    + by rewrite lookup_delete_eq in Hsame.
  - pose proof (item_views_run request pk db) as Hrun.
    pose proof (item_views_run other pk db) as Hother.
    destruct (items db !! pk) as [it|];
      destruct Hrun as (-> & -> & ->); by destruct Hother as (-> & -> & ->).
Qed.

Lemma add_or_merge_items (order product : Z) (form : AddToCartForm) (db : DB) :
  items (add_or_merge order product form db).1 = items db ∨
  ∃ pk it, items (add_or_merge order product form db).1 = <[pk := it]> (items db) ∧
           item_order it = order ∧
           ∀ old, items db !! pk = Some old → item_order old = order.
Proof.
  unfold add_or_merge. case_decide as Hfound.
  - right. eexists _, _. split; [done|]. split; [done|].
    intros old. by rewrite new_pk_fresh.
  - destruct (first _) as [[pk item]|] eqn:Hfirst; [|by left].
    right. eexists _, _. split; [done|].
    apply first_lookup, map_lookup_filter_Some in Hfirst as [Hitem Hm].
    destruct Hm as [Horder _]. cbn in Horder.
    split; [done|]. intros old. rewrite Hitem. by intros [= <-].
Qed.

(** C9, as the views have it. add_or_merge writes only items of the order it
    is given, so the items of every other order stay as they were.
    increase, decrease and remove never read the orders table: on an item
    of a placed order, increase stores the item with the quantity one
    higher, decrease deletes it when its quantity is 1 or less and stores
    it with the quantity one lower otherwise, and remove deletes it, so
    each of them leaves the placed order with other items than it had. *)
Theorem line_items_of_other_orders (request : Request) (order product pk other : Z)
    (form : AddToCartForm) (db : DB) (it : OrderItem) (placed : Order) :
  other ≠ order →
  items db !! pk = Some it →
  orders db !! item_order it = Some placed →
  ordered placed = true →
  items_of (add_or_merge order product form db).1 other = items_of db other ∧
  items_of (IncreaseQuantityView_get request pk db).1 (item_order it) !! pk
    = Some {| item_order := item_order it; item_product := item_product it;
              colour := colour it; size := size it;
              quantity := quantity it + 1 |} ∧
  items_of (DecreaseQuantityView_get request pk db).1 (item_order it) !! pk
    = (if quantity it <=? 1 then None
       else Some {| item_order := item_order it; item_product := item_product it;
                    colour := colour it; size := size it;
                    quantity := quantity it - 1 |}) ∧
  items_of (RemoveFromCartView_get request pk db).1 (item_order it) !! pk = None ∧
  items_of (IncreaseQuantityView_get request pk db).1 (item_order it)
    ≠ items_of db (item_order it) ∧
  items_of (DecreaseQuantityView_get request pk db).1 (item_order it)
    ≠ items_of db (item_order it) ∧
  items_of (RemoveFromCartView_get request pk db).1 (item_order it)
    ≠ items_of db (item_order it) ∧
  orders (IncreaseQuantityView_get request pk db).1 !! item_order it = Some placed ∧
  orders (DecreaseQuantityView_get request pk db).1 !! item_order it = Some placed ∧
  orders (RemoveFromCartView_get request pk db).1 !! item_order it = Some placed.
Proof.
  intros Hother Hit Horder Hplaced.
  assert (items_of db (item_order it) !! pk = Some it) as Hwas.
  { unfold items_of. by apply map_lookup_filter_Some. }
  destruct (item_views_change request pk it db Hit) as (-> & -> & ->).
  cbn [fst].
  assert (items_of (with_items db (delete pk (items db))) (item_order it) !! pk = None)
    as Hgone.
  { unfold items_of. cbn [items with_items]. apply map_lookup_filter_None.
    left. apply lookup_delete_eq. }
  assert (∀ q, items_of (with_items db
                 (<[pk := {| item_order := item_order it;
                             item_product := item_product it;
                             colour := colour it; size := size it;
                             quantity := q |}]> (items db))) (item_order it) !! pk
               = Some {| item_order := item_order it; item_product := item_product it;
                         colour := colour it; size := size it; quantity := q |})
    as Hstored.
  { intros q. unfold items_of. cbn [items with_items].
    apply map_lookup_filter_Some. split; [apply lookup_insert_eq|done]. }
  assert (∀ m, items_of (with_items db m) (item_order it) !! pk ≠ Some it →
               items_of (with_items db m) (item_order it)
                 ≠ items_of db (item_order it)) as Hdiffer.
  { intros m Hne Hsame. apply Hne. by rewrite Hsame. }
  split; [|split; [|split; [|split; [|split; [|split; [|split]]]]]].
  - unfold items_of.
    destruct (add_or_merge_items order product form db)
      as [->|(k & it' & -> & Hit' & Hold)]; [done|].
    apply map_filter_insert_not'; cbn.
    + congruence.
    + intros old Hk. rewrite (Hold old Hk). congruence.
  - apply Hstored.
  - destruct (quantity it <=? 1); [apply Hgone|apply Hstored].
  - apply Hgone.
  - apply Hdiffer. rewrite Hstored. intros [= Hq].
    apply (f_equal quantity) in Hq. cbn in Hq. lia.
  - apply Hdiffer. destruct (quantity it <=? 1).
    + by rewrite Hgone.
    + rewrite Hstored. intros [= Hq].
      apply (f_equal quantity) in Hq. cbn in Hq. lia.
  - apply Hdiffer. by rewrite Hgone.
  - by destruct (quantity it <=? 1).
Qed.
End OwnershipFacts.

(** ** The webhook *)

Section WebhookFacts.
Context `{Scalars} `{!Collaborators}.

Lemma is_succeeded_true (kind : json pyfloat) :
  is_succeeded kind = true ↔ kind = JStr "payment_intent.succeeded".
Proof.
  destruct kind; cbn; try (split; [done|congruence]).
  rewrite bool_decide_eq_true. split; [by intros ->|by intros [= ->]].
Qed.


(** The webhook once the header is there: what construct_event says
    decides. *)
Lemma webhook_with_header (clock : Clock) (request : Request) (db : DB) (sig : string) :
  HTTP_STRIPE_SIGNATURE request = Some sig →
  stripe_webhook_view clock request db =
    match construct_event (body request) sig STRIPE_WEBHOOK_SECRET with
    | Raise ValueError => (db, Done (HttpResponse 400))
    | Raise SignatureVerificationError => (db, Done (HttpResponse 400))
    | Raise e => (db, Raise e)
    | Done event =>
        match event_type event with
        | None => (db, Raise AttributeError)
        | Some kind =>
            if is_succeeded kind then
              match data_object_id event with
              | Raise e => (db, Raise e)
              | Done intent =>
                  match objects_get stripe_payments (intent_is (lookup_text intent)) db with
                  | (_, Done stripe_payment) =>
                      let saved := set_successful stripe_payment.2 in
                      match orders db !! sp_order saved with
                      | Some order =>
                          (with_orders
                             (with_stripe_payments db
                                (<[stripe_payment.1 := saved]> (stripe_payments db)))
                             (<[sp_order saved := place (DateTime (now clock)) order]>
                                (orders db)),
                           Done (HttpResponse 200))
                      | None =>
                          (with_stripe_payments db
                             (<[stripe_payment.1 := saved]> (stripe_payments db)),
                           Raise DoesNotExist)
                      end
                  | (_, Raise e) => (db, Raise e)
                  end
              end
            else (db, Done (HttpResponse 400))
        end
    end.
Proof.
  intros Hsig. unfold stripe_webhook_view, bind at 1, lift. rewrite Hsig.
  destruct (construct_event _ _ _) as [event|[]]; try done.
  unfold bind at 1.
  destruct (event_type event) as [kind|]; [|done].
  destruct (is_succeeded kind); [|done].
  unfold bind at 1.
  destruct (data_object_id event) as [intent|e]; [|done].
  unfold bind at 1.
  pose proof (objects_get_reads stripe_payments (intent_is (lookup_text intent)) db)
    as Hread.
  destruct (objects_get _ _ db) as [db' [[pk sp]|e]]; cbn in Hread; subst db'; [|done].
  unfold bind, write, related_order. cbn.
  by destruct (orders db !! sp_order sp).
Qed.

Lemma webhook_found (clock : Clock) (request : Request) (db : DB) (sig : string)
    (ev : Event) (id : string) (pk : Z) (sp : StripePayment) (o : Order) :
  HTTP_STRIPE_SIGNATURE request = Some sig →
  construct_event (body request) sig STRIPE_WEBHOOK_SECRET = Done ev →
  event_type ev = Some (JStr "payment_intent.succeeded") →
  data_object_id ev = Done (JStr id) →
  stripe_payments db !! pk = Some sp →
  payment_intent_id sp = id →
  (∀ pk' sp', stripe_payments db !! pk' = Some sp' →
              payment_intent_id sp' = id → pk' = pk) →
  orders db !! sp_order sp = Some o →
  stripe_webhook_view clock request db =
    (with_orders
       (with_stripe_payments db (<[pk := set_successful sp]> (stripe_payments db)))
       (<[sp_order sp := place (DateTime (now clock)) o]> (orders db)),
     Done (HttpResponse 200)).
Proof.
  intros Hsig Hev Htype Hid Hsp Hsame Huniq Ho.
  rewrite (webhook_with_header _ _ _ _ Hsig), Hev.
  rewrite Htype, Hid. cbn [is_succeeded lookup_text].
  rewrite bool_decide_true by done.
  rewrite (objects_get_unique stripe_payments _ db pk sp).
  - cbn. by rewrite Ho.
  - done.
  - unfold intent_is. cbn. by rewrite Hsame.
  - intros pk' sp' Hsp' Hm. unfold intent_is in Hm. cbn in Hm.
    injection Hm as Hm. eauto.
Qed.


(** C6. A verified payment_intent.succeeded event whose intent identifier
    is that of one stored payment record makes the webhook answer 200, mark
    that record successful and mark its order ordered, with the current
    time as ordered_date; nothing else is written. *)
Theorem webhook_places_order (clock : Clock) (request : Request) (db : DB)
    (sig : string) (ev : Event) (id : string) (pk : Z) (sp : StripePayment)
    (o : Order) :
  HTTP_STRIPE_SIGNATURE request = Some sig →
  construct_event (body request) sig STRIPE_WEBHOOK_SECRET = Done ev →
  event_type ev = Some (JStr "payment_intent.succeeded") →
  data_object_id ev = Done (JStr id) →
  stripe_payments db !! pk = Some sp →
  payment_intent_id sp = id →
  (∀ pk' sp', stripe_payments db !! pk' = Some sp' →
              payment_intent_id sp' = id → pk' = pk) →
  orders db !! sp_order sp = Some o →
  let r := stripe_webhook_view clock request db in
  r.2 = Done (HttpResponse 200) ∧
  (∃ sp', stripe_payments r.1 !! pk = Some sp' ∧ successful sp' = true ∧
          payment_intent_id sp' = payment_intent_id sp ∧ sp_order sp' = sp_order sp) ∧
  (∃ o', orders r.1 !! sp_order sp = Some o' ∧ ordered o' = true ∧
         ordered_date o' = Some (DateTime (now clock))) ∧
  r.1 = with_orders
          (with_stripe_payments db (<[pk := set_successful sp]> (stripe_payments db)))
          (<[sp_order sp := place (DateTime (now clock)) o]> (orders db)).
Proof.
  intros Hsig Hev Htype Hid Hsp Hsame Huniq Ho r. unfold r.
  rewrite (webhook_found clock request db sig ev id pk sp o) by done.
  cbn [fst snd]. split; [done|]. split; [|split; [|done]].
  - exists (set_successful sp). cbn. by rewrite lookup_insert_eq.
  - exists (place (DateTime (now clock)) o). cbn. by rewrite lookup_insert_eq.
Qed.

(** C10. A verified payment_intent.succeeded event whose intent identifier
    is that of no stored payment record makes the lookup raise
    DoesNotExist, which nothing catches: the view gives no response, neither
    200 nor 400, and the database is as it was. *)
Theorem webhook_unknown_intent (clock : Clock) (request : Request) (db : DB)
    (sig : string) (ev : Event) (id : string) :
  HTTP_STRIPE_SIGNATURE request = Some sig →
  construct_event (body request) sig STRIPE_WEBHOOK_SECRET = Done ev →
  event_type ev = Some (JStr "payment_intent.succeeded") →
  data_object_id ev = Done (JStr id) →
  (∀ pk sp, stripe_payments db !! pk = Some sp → payment_intent_id sp ≠ id) →
  stripe_webhook_view clock request db = (db, Raise DoesNotExist) ∧
  (stripe_webhook_view clock request db).2 ≠ Done (HttpResponse 200) ∧
  (stripe_webhook_view clock request db).2 ≠ Done (HttpResponse 400).
Proof.
  intros Hsig Hev Htype Hid Hnone.
  assert (stripe_webhook_view clock request db = (db, Raise DoesNotExist)) as ->.
  { rewrite (webhook_with_header _ _ _ _ Hsig), Hev.
    rewrite Htype, Hid. cbn [is_succeeded lookup_text].
    rewrite bool_decide_true by done.
    rewrite objects_get_none; [done|].
    intros pk sp Hsp. unfold intent_is. cbn. intros [= Hm]. by apply (Hnone pk sp). }
  done.
Qed.
End WebhookFacts.

(** ** The confirmation callback *)

Section CallbackFacts.
Context `{Scalars} `{!Collaborators}.

Lemma callback_runs (clock : Clock) (request : Request) (db db1 : DB) (order : Z)
    (o : Order) (j v : json pyfloat) (a : pyfloat) :
  get_or_set_order_session request db = (db1, Done order) →
  orders db1 !! order = Some o →
  json_loads (body request) = Done j →
  amount_value j = Done v →
  py_float v = Done a →
  ConfirmOrderView_post clock request db =
    (with_orders (with_payments db1 (payments db1 ++ [attempt order j a]))
       (alter (place (Date (today clock))) order (orders db1)),
     Done (JsonResponse (JObj {[ "data" := JStr "Success" ]}))).
Proof.
  intros Hsession Ho Hjson Hvalue Hfloat.
  unfold ConfirmOrderView_post, bind at 1. rewrite Hsession.
  unfold bind, lift, write, save_update_fields.
  rewrite Hjson, Hvalue, Hfloat. cbn. by rewrite Ho.
Qed.

(** C7, as the view has it. When the body decodes to a JSON value that holds
    purchase_units[0].amount.value and float() accepts that value, the
    callback appends one payment attempt for the order of the session, with
    successful=true, the amount float(value), the decoded body serialised
    again as raw response and PayPal as method; it marks that order ordered
    with the date of today, leaves the other orders alone and answers the
    JSON object with "data" set to "Success". *)
Theorem callback_places_order (clock : Clock) (request : Request) (db db1 : DB)
    (order : Z) (o : Order) (j v : json pyfloat) (a : pyfloat) :
  get_or_set_order_session request db = (db1, Done order) →
  orders db1 !! order = Some o →
  json_loads (body request) = Done j →
  amount_value j = Done v →
  py_float v = Done a →
  let r := ConfirmOrderView_post clock request db in
  r.2 = Done (JsonResponse (JObj {[ "data" := JStr "Success" ]})) ∧
  payments r.1 = (payments db1 ++
    [{| pay_order := order; pay_successful := true; raw_response := json_dumps j;
        pay_amount := a; payment_method := PAYPAL_PAYMENT_METHOD |}])%list ∧
  orders r.1 !! order
    = Some {| order_user := order_user o; ordered := true;
              ordered_date := Some (Date (today clock)) |} ∧
  (∀ other, other ≠ order → orders r.1 !! other = orders db1 !! other) ∧
  items r.1 = items db1 ∧ stripe_payments r.1 = stripe_payments db1.
Proof.
  intros Hsession Ho Hjson Hvalue Hfloat r. unfold r.
  rewrite (callback_runs clock request db db1 order o j v a) by done.
  cbn. split; [done|]. split; [done|]. split.
  - by rewrite lookup_alter_eq, Ho.
  - split; [|done]. intros other Hne. by rewrite lookup_alter_ne.
Qed.

(** C1, as the views have it. For an order that is already placed and whose
    payment record is already successful, a further payment_intent.succeeded
    webhook for its intent answers 200, appends no payment attempt and
    leaves the record and the ordered flag as they were, but sets
    ordered_date to the time of this delivery.  A further callback appends
    one more successful attempt, for the order the session gives, and
    places that order; every other order keeps its ordered flag and its
    ordered_date. *)
Theorem reconfirmation (clock : Clock) (hook again : Request) (db db1 : DB)
    (sig : string) (ev : Event) (id : string) (pk : Z) (sp : StripePayment)
    (o : Order) (order : Z) (fresh_order : Order) (j v : json pyfloat)
    (a : pyfloat) :
  (* the webhook is delivered again *)
  HTTP_STRIPE_SIGNATURE hook = Some sig →
  construct_event (body hook) sig STRIPE_WEBHOOK_SECRET = Done ev →
  event_type ev = Some (JStr "payment_intent.succeeded") →
  data_object_id ev = Done (JStr id) →
  stripe_payments db !! pk = Some sp →
  payment_intent_id sp = id →
  (∀ pk' sp', stripe_payments db !! pk' = Some sp' →
              payment_intent_id sp' = id → pk' = pk) →
  orders db !! sp_order sp = Some o →
  successful sp = true →
  ordered o = true →
  (* the callback is invoked again *)
  get_or_set_order_session again db = (db1, Done order) →
  orders db1 !! order = Some fresh_order →
  json_loads (body again) = Done j →
  amount_value j = Done v →
  py_float v = Done a →
  let w := stripe_webhook_view clock hook db in
  let c := ConfirmOrderView_post clock again db in
  (w.2 = Done (HttpResponse 200) ∧
   payments w.1 = payments db ∧
   stripe_payments w.1 = stripe_payments db ∧
   items w.1 = items db ∧
   orders w.1 !! sp_order sp
     = Some {| order_user := order_user o; ordered := true;
               ordered_date := Some (DateTime (now clock)) |} ∧
   (∀ other, other ≠ sp_order sp → orders w.1 !! other = orders db !! other)) ∧
  (payments c.1 = (payments db1 ++ [attempt order j a])%list ∧
   pay_successful (attempt order j a) = true ∧
   (∃ o', orders c.1 !! order = Some o' ∧ ordered o' = true) ∧
   (∀ other, other ≠ order → orders c.1 !! other = orders db1 !! other)).
Proof.
  intros Hsig Hev Htype Hid Hsp Hsame Huniq Ho Hpaid Hplaced
         Hsession Hfresh Hjson Hvalue Hfloat w c.
  unfold w, c.
  rewrite (webhook_found clock hook db sig ev id pk sp o) by done.
  rewrite (callback_runs clock again db db1 order fresh_order j v a) by done.
  cbn. split.
  - split; [done|]. split; [done|]. split; [|split; [done|split]].
    + apply insert_id. rewrite Hsp. f_equal.
      destruct sp as [? ? ? paid]. cbn in Hpaid. by subst paid.
    + by rewrite lookup_insert_eq.
    + intros other Hne. by rewrite lookup_insert_ne.
  - split; [done|]. split; [done|]. split.
    + eexists. by rewrite lookup_alter_eq, Hfresh.
    + intros other Hne. by rewrite lookup_alter_ne.
Qed.
End CallbackFacts.

(** ** The payment record of an order *)

Section PaymentRecordFacts.
Context `{Scalars} `{!Collaborators}.

Lemma length_append (a b : string) :
  String.length (a +:+ b) = (String.length a + String.length b)%nat.
Proof. induction a as [|c a IH]; simpl; [done|]. by f_equal. Qed.

(** The text of the tuple is never the identifier itself. *)
Lemma str_of_tuple1_differs (s : string) : str_of_tuple1 s ≠ s.
Proof.
  intros Heq. apply (f_equal String.length) in Heq.
  unfold str_of_tuple1 in Heq. rewrite !length_append in Heq. cbn in Heq. lia.
Qed.

(** get_or_create hands back the record of the order when there is exactly
    one, and writes nothing. *)
Lemma get_or_create_reuses (order : Z) (db : DB) (pk : Z) (sp : StripePayment) :
  stripe_payments db !! pk = Some sp →
  sp_order sp = order →
  (∀ pk' sp', stripe_payments db !! pk' = Some sp' → sp_order sp' = order → pk' = pk) →
  get_or_create order db = (db, Done (pk, sp)).
Proof.
  intros Hsp Horder Huniq. unfold get_or_create.
  by rewrite (objects_get_unique stripe_payments _ db pk sp).
Qed.

(** get_or_create saves a new record when the order has none. *)
Lemma get_or_create_creates (order : Z) (db : DB) :
  (∀ pk sp, stripe_payments db !! pk = Some sp → sp_order sp ≠ order) →
  let created := {| sp_order := order; payment_intent_id := EmptyString;
                    sp_amount := None; successful := false |} in
  get_or_create order db =
    (with_stripe_payments db
       (<[new_pk (stripe_payments db) := created]> (stripe_payments db)),
     Done (new_pk (stripe_payments db), created)).
Proof.
  intros Hnone created. unfold get_or_create.
  rewrite objects_get_none; [done|].
  intros pk sp Hsp. unfold order_is. cbn. by apply (Hnone pk).
Qed.

(** The payment page, when every call succeeds and the order has its
    record: the record is reused, and what is saved as its identifier is
    the text of a tuple, not the identifier of the new intent. *)
Lemma payment_page_record (stripe : Stripe) (request : Request) (db db1 : DB)
    (uid : Z) (customer : Customer) (order pk : Z) (intent : Intent)
    (sp : StripePayment) (cards : list Card) :
  user request = Some uid →
  customers db !! uid = Some customer →
  stripe_customer_id customer ≠ EmptyString →
  get_or_set_order_session request db = (db1, Done order) →
  PaymentIntent_create stripe (get_raw_total db1 order) (stripe_customer_id customer)
    = Done intent →
  stripe_payments db1 !! pk = Some sp →
  sp_order sp = order →
  (∀ pk' sp', stripe_payments db1 !! pk' = Some sp' → sp_order sp' = order → pk' = pk) →
  PaymentMethod_list stripe (stripe_customer_id customer) = Done cards →
  let r := StripePaymentView_get_context_data stripe request db in
  r.1 = with_stripe_payments db1
          (alter (set_intent (str_of_tuple1 (intent_id intent)) (get_total db1 order))
                 pk (stripe_payments db1)) ∧
  (∃ ctx, r.2 = Done ctx ∧ ctx_client_secret ctx = client_secret intent) ∧
  (∃ sp', stripe_payments r.1 !! pk = Some sp' ∧
          payment_intent_id sp' = str_of_tuple1 (intent_id intent) ∧
          payment_intent_id sp' ≠ intent_id intent).
Proof.
  intros Huser Hcustomer Hid Hsession Hintent Hsp Horder Huniq Hcards r.
  assert (r = (with_stripe_payments db1
                 (alter (set_intent (str_of_tuple1 (intent_id intent))
                                    (get_total db1 order)) pk (stripe_payments db1)),
               Done {| ctx_STRIPE_PUBLIC_KEY := STRIPE_PUBLIC_KEY;
                       ctx_client_secret := client_secret intent;
                       ctx_payment_methods := card_entry <$> cards |})) as ->.
  { unfold r, StripePaymentView_get_context_data, bind at 1, user_customer.
    rewrite Huser, Hcustomer. cbn [fst snd].
    rewrite decide_False by done.
    unfold bind at 1, ret. unfold bind at 1. rewrite Hsession.
    unfold bind at 1, read. unfold bind at 1, lift. rewrite Hintent.
    unfold bind at 1. rewrite (get_or_create_reuses order db1 pk sp) by done.
    unfold bind, save_intent, save_update_fields. cbn [fst snd].
    rewrite Hsp, Hcards. done. }
  cbn [fst snd]. split; [done|]. split; [eauto|].
  eexists. cbn. rewrite lookup_alter_eq, Hsp. cbn.
  split; [done|]. split; [done|]. apply str_of_tuple1_differs.
Qed.

(** The saved-card path stores the identifier of the new intent as it is. *)
Lemma saved_card_record (stripe : Stripe) (request : Request) (db db1 : DB)
    (uid : Z) (customer : Customer) (order pk : Z) (intent : Intent)
    (sp : StripePayment) (card : string) :
  card ≠ "newCard" →
  get_or_set_order_session request db = (db1, Done order) →
  user request = Some uid →
  customers db1 !! uid = Some customer →
  PaymentIntent_confirm stripe (get_raw_total db1 order) (stripe_customer_id customer) card
    = Done intent →
  stripe_payments db1 !! pk = Some sp →
  sp_order sp = order →
  (∀ pk' sp', stripe_payments db1 !! pk' = Some sp' → sp_order sp' = order → pk' = pk) →
  StripePaymentView_form_valid stripe request card db =
    (with_stripe_payments db1
       (alter (set_intent (intent_id intent) (get_total db1 order)) pk (stripe_payments db1)),
     Done (Redirect "/")).
Proof.
  intros Hcard Hsession Huser Hcustomer Hintent Hsp Horder Huniq.
  unfold StripePaymentView_form_valid, bind at 1.
  rewrite decide_True by done.
  unfold try_except_CardError, bind at 1. rewrite Hsession.
  unfold bind at 1, read. unfold bind at 1, user_customer.
  rewrite Huser, Hcustomer. unfold bind at 1, lift. cbn [fst snd].
  rewrite Hintent.
  unfold bind at 1. rewrite (get_or_create_reuses order db1 pk sp) by done.
  unfold bind, save_intent, save_update_fields. cbn [fst snd].
  by rewrite Hsp.
Qed.
End PaymentRecordFacts.

(** ** The properties at work in the sample world *)

Module Examples.
Import Sample Fixtures.

(** Three additions of red M shirts to the empty cart leave one item of
    quantity 2 + 3 + 1, under a pk that was free. *)
Lemma add_or_merge_sums_witness :
  ∃ pk, items empty_cart !! pk = None ∧
        items (add_all 1 7 "red" "M" [2; 3; 1] empty_cart).1 = {[ pk := shirts 6 ]}.
Proof.
  destruct (add_or_merge_sums empty_cart 1 7 "red" "M" 2 [3; 1])
    as (pk & Hfree & _ & Hall & _).
  - intros pk it Hit. cbn [items empty_cart] in Hit. by rewrite lookup_empty in Hit.
  - exists pk. split; [exact Hfree|]. rewrite Hall. apply insert_empty.
Defined.

(** Decreasing the two shirts of the cart leaves one. *)
Lemma decrease_quantity_witness :
  items cart !! 10 = Some (shirts 2) ∧
  items (DecreaseQuantityView_get bob 10 cart).1 !! 10 = Some (shirts 1).
Proof.
  assert (items cart !! 10 = Some (shirts 2)) as Hit by (vm_compute; reflexivity).
  split; [exact Hit|].
  destruct (decrease_quantity bob 10 (shirts 2) cart Hit) as (_ & _ & Htwo & _).
  apply Htwo. vm_compute. discriminate.
Defined.

(** C5 fails as stated: Bob, whose user is not the owner of order 1,
    increases item 10 of Alice's open order; the view redirects and the
    item has one more. *)
Lemma increase_foreign_item :
  ¬ in_own_open_order cart bob 10 ∧
  (IncreaseQuantityView_get bob 10 cart).2 = Done (Redirect "cart:summary") ∧
  items (IncreaseQuantityView_get bob 10 cart).1 !! 10 = Some (shirts 3) ∧
  items cart !! 10 = Some (shirts 2).
Proof.
  split; [|by vm_compute].
  intros (it & o & Hit & Ho & _ & Huser).
  assert (it = shirts 2) as -> by (vm_compute in Hit; injection Hit as <-; reflexivity).
  assert (o = open_order 1) as -> by (vm_compute in Ho; injection Ho as <-; reflexivity).
  discriminate Huser.
Qed.

(** C9 fails as stated: order 1 of the receipt is placed, and increasing its
    item 10 changes the items of that order. *)
Lemma increase_placed_item :
  ordered <$> orders receipt !! 1 = Some true ∧
  (IncreaseQuantityView_get alice 10 receipt).2 = Done (Redirect "cart:summary") ∧
  items_of (IncreaseQuantityView_get alice 10 receipt).1 1 ≠ items_of receipt 1.
Proof.
  split; [by vm_compute|]. split; [by vm_compute|].
  intros Heq. apply (f_equal (λ m : gmap Z OrderItem, quantity <$> m !! 10)) in Heq.
  vm_compute in Heq. discriminate Heq.
Qed.

(** On the receipt, whose order 1 is placed: adding to order 2 leaves the
    items of order 1 alone, increasing item 10 gives order 1 three shirts
    and removing it leaves order 1 without the item. *)
Lemma line_items_of_other_orders_witness :
  ordered <$> orders receipt !! 1 = Some true ∧
  items_of (add_or_merge 2 7 (shirt_form 3) receipt).1 1 = items_of receipt 1 ∧
  items_of (IncreaseQuantityView_get alice 10 receipt).1 1 !! 10 = Some (shirts 3) ∧
  items_of (RemoveFromCartView_get alice 10 receipt).1 1 !! 10 = None.
Proof.
  destruct (line_items_of_other_orders alice 2 7 10 1 (shirt_form 3) receipt
              (shirts 2) (placed_order 1 (DateTime 100)))
    as (Hadd & Hinc & _ & Hrem & _).
  - discriminate.
  - vm_compute. reflexivity.
  - vm_compute. reflexivity.
  - reflexivity.
  - split; [vm_compute; reflexivity|]. split; [exact Hadd|].
    split; [exact Hinc | exact Hrem].
Defined.



(** The event for pi_123 places order 1 of the cart at time 200. *)
Lemma webhook_places_order_witness :
  (stripe_webhook_view noon (succeeded "pi_123") cart).2 = Done (HttpResponse 200) ∧
  orders (stripe_webhook_view noon (succeeded "pi_123") cart).1 !! 1
    = Some (placed_order 1 (DateTime 200)).
Proof.
  destruct (webhook_places_order noon (succeeded "pi_123") cart "whsec_test"
              {| event_type := Some (JStr "payment_intent.succeeded");
                 data_object_id := Done (JStr "pi_123") |}
              "pi_123" 5 (record "pi_123" false) (open_order 1))
    as (Hdone & _ & _ & Hdb).
  - reflexivity.
  - vm_compute. reflexivity.
  - reflexivity.
  - reflexivity.
  - vm_compute. reflexivity.
  - reflexivity.
  - intros pk' sp' Hsp _. cbn [stripe_payments cart] in Hsp.
    by apply lookup_singleton_Some in Hsp as [<- _].
  - vm_compute. reflexivity.
  - split; [exact Hdone|]. rewrite Hdb. vm_compute. reflexivity.
Defined.

(** The event for the unknown pi_999 raises DoesNotExist. *)
Lemma webhook_unknown_intent_witness :
  stripe_webhook_view noon (succeeded "pi_999") cart = (cart, Raise DoesNotExist).
Proof.
  apply (webhook_unknown_intent noon (succeeded "pi_999") cart "whsec_test"
           {| event_type := Some (JStr "payment_intent.succeeded");
              data_object_id := Done (JStr "pi_999") |} "pi_999").
  - reflexivity.
  - vm_compute. reflexivity.
  - reflexivity.
  - reflexivity.
  - intros pk sp Hsp. cbn [stripe_payments cart] in Hsp.
    apply lookup_singleton_Some in Hsp as [_ <-].
    vm_compute. discriminate.
Defined.

(** C7 fails as stated, twice.  The null body holds
    purchase_units[0].amount.value, but the value is null: float(None)
    raises TypeError, no attempt is recorded and the order stays open.
    And the body sent with a leading space is answered with Success, but
    the raw response recorded is the decoded body serialised again, not the
    payload as it was sent. *)
Lemma callback_null_amount :
  (∃ j, json_loads (body (callback null_body)) = Done j ∧ amount_value j = Done JNull) ∧
  (ConfirmOrderView_post noon (callback null_body) cart).2 = Raise TypeError ∧
  payments (ConfirmOrderView_post noon (callback null_body) cart).1 = [] ∧
  orders (ConfirmOrderView_post noon (callback null_body) cart).1 !! 1
    = Some (open_order 1) ∧
  (ConfirmOrderView_post noon (callback spaced_body) cart).2
    = Done (JsonResponse (JObj {[ "data" := JStr "Success" ]})) ∧
  raw_response <$> payments (ConfirmOrderView_post noon (callback spaced_body) cart).1
    = [paid_body] ∧
  paid_body ≠ body (callback spaced_body).
Proof.
  split.
  - exists (capture JNull). split; vm_compute; reflexivity.
  - split; [|split; [|split; [|split; [|split]]]]; try (vm_compute; reflexivity).
    vm_compute. discriminate.
Qed.

(** The callback with a capture of 10 places order 1 of the cart today and
    records the attempt. *)
Lemma callback_places_order_witness :
  (ConfirmOrderView_post noon (callback paid_body) cart).2
    = Done (JsonResponse (JObj {[ "data" := JStr "Success" ]})) ∧
  payments (ConfirmOrderView_post noon (callback paid_body) cart).1
    = [attempt 1 (capture (JStr "10")) 10] ∧
  orders (ConfirmOrderView_post noon (callback paid_body) cart).1 !! 1
    = Some (placed_order 1 (Date 20)).
Proof.
  destruct (callback_places_order noon (callback paid_body) cart cart 1 (open_order 1)
              (capture (JStr "10")) (JStr "10") 10)
    as (Hdone & Hlog & Horder & _).
  - vm_compute. reflexivity.
  - vm_compute. reflexivity.
  - vm_compute. reflexivity.
  - vm_compute. reflexivity.
  - vm_compute. reflexivity.
  - split; [exact Hdone|]. split; [exact Hlog | exact Horder].
Defined.

(** C1 fails as stated: order 1 of the receipt was placed at time 100; the
    same event delivered again at time 200 is answered 200 and ordered_date
    is then 200. *)
Lemma webhook_again_overwrites_date :
  orders receipt !! 1 = Some (placed_order 1 (DateTime 100)) ∧
  (stripe_webhook_view noon (succeeded "pi_123") receipt).2 = Done (HttpResponse 200) ∧
  ordered_date <$> orders (stripe_webhook_view noon (succeeded "pi_123") receipt).1 !! 1
    = Some (Some (DateTime 200)) ∧
  ordered_date <$> orders (stripe_webhook_view noon (succeeded "pi_123") receipt).1 !! 1
    ≠ ordered_date <$> orders receipt !! 1.
Proof.
  split; [by vm_compute|]. split; [by vm_compute|]. split; [by vm_compute|].
  vm_compute. discriminate.
Qed.

(** Both confirmations once more on the receipt: the webhook moves the date
    of order 1 to 200; the callback, for which the session gives the new
    order 2, records an attempt for order 2 and leaves order 1 as it was. *)
Lemma reconfirmation_witness :
  let db1 := (resolve_open_order (callback paid_body) receipt).1 in
  let w := stripe_webhook_view noon (succeeded "pi_123") receipt in
  let c := ConfirmOrderView_post noon (callback paid_body) receipt in
  resolve_open_order (callback paid_body) receipt = (db1, Done 2) ∧
  orders w.1 !! 1 = Some (placed_order 1 (DateTime 200)) ∧
  payments w.1 = [] ∧
  payments c.1 = [attempt 2 (capture (JStr "10")) 10] ∧
  orders c.1 !! 1 = Some (placed_order 1 (DateTime 100)).
Proof.
  intros db1 w c.
  assert (resolve_open_order (callback paid_body) receipt = (db1, Done 2)) as Hsession
    by (vm_compute; reflexivity).
  split; [exact Hsession|].
  destruct (reconfirmation noon (succeeded "pi_123") (callback paid_body) receipt db1
              "whsec_test"
              {| event_type := Some (JStr "payment_intent.succeeded");
                 data_object_id := Done (JStr "pi_123") |}
              "pi_123" 5 (record "pi_123" true) (placed_order 1 (DateTime 100))
              2 {| order_user := Some 1; ordered := false; ordered_date := None |}
              (capture (JStr "10")) (JStr "10") 10)
    as ((_ & Hlog & _ & _ & Hdate & _) & (Hattempt & _ & _ & Hother)).
  - reflexivity.
  - vm_compute. reflexivity.
  - reflexivity.
  - reflexivity.
  - vm_compute. reflexivity.
  - reflexivity.
  - intros pk' sp' Hsp _. cbn [stripe_payments receipt] in Hsp.
    by apply lookup_singleton_Some in Hsp as [<- _].
  - vm_compute. reflexivity.
  - reflexivity.
  - reflexivity.
  - exact Hsession.
  - vm_compute. reflexivity.
  - vm_compute. reflexivity.
  - vm_compute. reflexivity.
  - vm_compute. reflexivity.
  - split; [exact Hdate|]. split; [exact Hlog|]. split; [exact Hattempt|].
    unfold c. rewrite (Hother 1) by discriminate. vm_compute. reflexivity.
Defined.

(** C8 at work. The payment page for Alice's cart, the processor answering
    with the intent pi_456: the record 5 of order 1 is reused (the order
    still has one record), but what it holds as identifier is the text of
    the tuple, so the event for pi_456 finds no record; the saved-card path
    on the same cart stores pi_456. *)
Theorem payment_page_stores_tuple_text :
  let r := StripePaymentView_get_context_data processor alice cart in
  (∃ ctx, r.2 = Done ctx ∧ ctx_client_secret ctx = "pi_456_secret") ∧
  dom (stripe_payments r.1) = {[ 5 ]} ∧
  payment_intent_id <$> stripe_payments r.1 !! 5 = Some "('pi_456',)" ∧
  stripe_webhook_view noon (succeeded "pi_456") r.1 = (r.1, Raise DoesNotExist) ∧
  payment_intent_id <$>
    stripe_payments (StripePaymentView_form_valid processor alice "pm_1" cart).1 !! 5
    = Some "pi_456".
Proof.
  intros r. split; [eexists; split; vm_compute; reflexivity|].
  split; [by vm_compute|]. split; [by vm_compute|]. split; by vm_compute.
Qed.
End Examples.

(** * Further properties of the views *)

(** ** Queries over several rows *)

Section MoreQueryFacts.
Context `{Scalars}.



(** first() is None on the empty queryset only. *)
Lemma first_is_Some {A} (m : gmap Z A) : m ≠ ∅ → is_Some (first m).
Proof.
  intros Hne. unfold first.
  destruct (map_to_list m) as [|x l] eqn:Hl.
  - by apply map_to_list_empty_iff in Hl.
  - cbn. unfold lower_key. destruct (foldr _ _ l); [case_match|]; eauto.
Qed.

Lemma map_to_list_one {A} (m : gmap Z A) (pk : Z) (row : A) :
  map_to_list m = [(pk, row)] → m = {[ pk := row ]}.
Proof.
  intros Hl. apply map_to_list_inj. by rewrite Hl, map_to_list_singleton.
Qed.

(** get raises MultipleObjectsReturned when two rows pass the filter. *)
Lemma objects_get_ambiguous {A} (table : DB → gmap Z A) (P : Z * A → Prop)
    `{∀ x, Decision (P x)} (db : DB) (pk1 pk2 : Z) (row1 row2 : A) :
  pk1 ≠ pk2 →
  table db !! pk1 = Some row1 → P (pk1, row1) →
  table db !! pk2 = Some row2 → P (pk2, row2) →
  objects_get table P db = (db, Raise MultipleObjectsReturned).
Proof.
  intros Hne H1 HP1 H2 HP2. unfold objects_get.
  assert (filter P (table db) !! pk1 = Some row1) as Hf1
    by by apply map_lookup_filter_Some.
  assert (filter P (table db) !! pk2 = Some row2) as Hf2
    by by apply map_lookup_filter_Some.
  destruct (map_to_list (filter P (table db))) as [|[k v] [|? ?]] eqn:Hl; [| |done].
  - apply map_to_list_empty_iff in Hl. by rewrite Hl, lookup_empty in Hf1.
  - apply map_to_list_one in Hl. rewrite Hl in Hf1, Hf2.
    apply lookup_singleton_Some in Hf1 as [<- _].
    apply lookup_singleton_Some in Hf2 as [? _]. done.
Qed.

Lemma set_quantity_same (it : OrderItem) : set_quantity (quantity it) it = it.
Proof. by destruct it. Qed.
End MoreQueryFacts.

(** ** More on the line-item views *)

Section LineItemExtras.
Context `{Scalars}.

(** The merge branch always finds the item it merges into. *)
Lemma add_or_merge_done (order product : Z) (form : AddToCartForm) (db : DB) :
  (add_or_merge order product form db).2 = Done tt.
Proof.
  unfold add_or_merge. case_decide as Hfound; [done|].
  by destruct (first_is_Some _ Hfound) as [[pk item] ->].
Qed.

Lemma get_object_found (kwargs_slug : string) (db : DB) (pk : Z) (p : Product) :
  products db !! pk = Some p →
  slug p = kwargs_slug →
  (∀ pk' p', products db !! pk' = Some p' → slug p' = kwargs_slug → pk' = pk) →
  get_object kwargs_slug db = (db, Done (pk, p)).
Proof.
  intros Hp Hslug Huniq. unfold get_object, get_object_or_404.
  by rewrite (objects_get_unique products _ db pk p).
Qed.

(** Once the product of the slug is found, the add view cannot fail: it
    redirects to the cart, and what it wrote is what add_or_merge writes
    for the order of the session. *)
Theorem add_view_redirects `{!Collaborators} (request : Request) (kwargs_slug : string)
    (form : AddToCartForm) (db db1 : DB) (order pk : Z) (p : Product) :
  get_or_set_order_session request db = (db1, Done order) →
  products db1 !! pk = Some p →
  slug p = kwargs_slug →
  (∀ pk' p', products db1 !! pk' = Some p' → slug p' = kwargs_slug → pk' = pk) →
  ProductDetailView_form_valid request kwargs_slug form db =
    ((add_or_merge order pk form db1).1, Done (Redirect "cart:summary")).
Proof.
  intros Hsession Hp Hslug Huniq.
  rewrite (form_valid_adds request kwargs_slug form db db1 order (pk, p) Hsession)
    by by apply get_object_found.
  cbn [fst]. by rewrite add_or_merge_done.
Qed.

(** With no product of that slug a POST to the product page ends in
    Http404 whatever the form holds: get_form_kwargs looks the product up
    before the form is built, so form_valid does not run, the session is
    not looked up and nothing is written. *)
Theorem add_view_unknown_slug `{!Collaborators} (request : Request) (kwargs_slug : string)
    (cleaned : option AddToCartForm) (db : DB) :
  (∀ pk p, products db !! pk = Some p → slug p ≠ kwargs_slug) →
  ProductDetailView_post request kwargs_slug cleaned db = (db, Raise Http404).
Proof.
  intros Hnone.
  unfold ProductDetailView_post, bind at 1, get_form_kwargs, bind at 1,
    get_object, get_object_or_404.
  rewrite objects_get_none; [done|].
  intros pk p Hp. unfold slug_is. cbn. by apply (Hnone pk).
Qed.

(** add_or_merge leaves every item alone that is not of the order, product,
    colour and size it is called for, and it writes no other table. *)
Theorem add_or_merge_keeps_other_items (order product : Z) (form : AddToCartForm)
    (db : DB) (pk : Z) (it : OrderItem) :
  items db !! pk = Some it →
  ¬ matches order product (form_colour form) (form_size form) (pk, it) →
  let db' := (add_or_merge order product form db).1 in
  items db' !! pk = Some it ∧
  orders db' = orders db ∧ products db' = products db ∧
  stripe_payments db' = stripe_payments db ∧ payments db' = payments db ∧
  customers db' = customers db.
Proof.
  intros Hit Hother db'. unfold db', add_or_merge. case_decide as Hfound.
  - cbn. split; [|done]. rewrite lookup_insert_ne; [done|].
    intros Heq. by rewrite <-Heq, new_pk_fresh in Hit.
  - destruct (first _) as [[k item]|] eqn:Hfirst; [|done].
    cbn. split; [|done]. rewrite lookup_insert_ne; [done|].
    intros ->. apply first_lookup, map_lookup_filter_Some in Hfirst as [Hitem Hm].
    rewrite Hit in Hitem. injection Hitem as ->. done.
Qed.


(** An increase followed by a decrease of the same item gives back the
    database, for an item of quantity 1 or more. *)
Theorem increase_then_decrease (request : Request) (pk : Z) (it : OrderItem) (db : DB) :
  items db !! pk = Some it →
  1 ≤ quantity it →
  DecreaseQuantityView_get request pk (IncreaseQuantityView_get request pk db).1
    = (db, Done (Redirect "cart:summary")).
Proof.
  intros Hit Hq. rewrite (increase_runs request pk it db Hit). cbn [fst].
  rewrite (decrease_runs request pk (set_quantity (quantity it + 1) it))
    by (cbn; by rewrite lookup_alter_eq, Hit).
  cbn [quantity set_quantity]. destruct (Z.leb_spec (quantity it + 1) 1); [lia|].
  assert (alter (set_quantity (quantity it + 1 - 1)) pk
            (alter (set_quantity (quantity it + 1)) pk (items db)) = items db) as Hback.
  { apply map_eq. intros k. destruct (decide (k = pk)) as [->|Hne].
    - rewrite !lookup_alter_eq, Hit. cbn. f_equal.
      replace (quantity it + 1 - 1) with (quantity it) by lia.
      by destruct it.
    - by rewrite !lookup_alter_ne. }
  unfold with_items at 1. cbn [orders items products stripe_payments payments
                              customers with_items].
  rewrite Hback. by destruct db.
Qed.

(** An item that was removed, or decreased at quantity 1 or less, is gone
    for good: increase, decrease and remove of its id then raise Http404 and
    write nothing. *)
Theorem gone_is_gone (request : Request) (pk : Z) (it : OrderItem) (db db' : DB) :
  items db !! pk = Some it →
  db' = (RemoveFromCartView_get request pk db).1 ∨
  (quantity it ≤ 1 ∧ db' = (DecreaseQuantityView_get request pk db).1) →
  items db' !! pk = None ∧
  IncreaseQuantityView_get request pk db' = (db', Raise Http404) ∧
  DecreaseQuantityView_get request pk db' = (db', Raise Http404) ∧
  RemoveFromCartView_get request pk db' = (db', Raise Http404).
Proof.
  intros Hit Hhow.
  assert (items db' !! pk = None) as Hgone.
  { destruct Hhow as [->|[Hq ->]].
    - rewrite (remove_runs request pk it db Hit). cbn. apply lookup_delete_eq.
    - rewrite (decrease_runs request pk it db Hit).
      destruct (Z.leb_spec (quantity it) 1); [|lia]. cbn. apply lookup_delete_eq. }
  split; [done|].
  pose proof (item_views_run request pk db') as Hrun. by rewrite Hgone in Hrun.
Qed.
End LineItemExtras.

(** ** Counting down, and the cart invariant *)

Section CountingFacts.
Context `{Scalars}.

Lemma decrease_times_steps (request : Request) (pk : Z) (k : nat) :
  ∀ (db : DB) (it : OrderItem),
    items db !! pk = Some it →
    1 ≤ quantity it →
    Z.of_nat k ≤ quantity it →
    (decrease_times k request pk db).2 = Done tt ∧
    items (decrease_times k request pk db).1 !! pk
      = (if decide (Z.of_nat k = quantity it) then None
         else Some (set_quantity (quantity it - Z.of_nat k) it)) ∧
    ∀ pk', pk' ≠ pk → items (decrease_times k request pk db).1 !! pk' = items db !! pk'.
Proof.
  induction k as [|k IH]; intros db it Hit Hq Hk.
  - cbn [decrease_times ret fst snd]. split; [done|]. split; [|done].
    rewrite decide_False by lia. rewrite Hit. f_equal.
    replace (quantity it - Z.of_nat 0) with (quantity it) by lia.
    by destruct it.
  - cbn [decrease_times]. unfold bind.
    rewrite (decrease_runs request pk it db Hit).
    destruct (Z.leb_spec (quantity it) 1) as [Hone|Hmore].
    + assert (k = 0%nat) as -> by lia. cbn [decrease_times ret fst snd].
      split; [done|]. split.
      * rewrite decide_True by lia. cbn. apply lookup_delete_eq.
      * intros pk' Hne. cbn. by apply lookup_delete_ne.
    + set (db' := with_items db (alter (set_quantity (quantity it - 1)) pk (items db))).
      assert (items db' !! pk = Some (set_quantity (quantity it - 1) it)) as Hit'
        by (unfold db'; cbn; by rewrite lookup_alter_eq, Hit).
      destruct (IH db' _ Hit') as (Hdone & Hpk & Hothers); cbn [quantity set_quantity];
        [lia..|].
      split; [done|]. split.
      * rewrite Hpk. cbn [quantity set_quantity].
        destruct (decide (Z.of_nat k = quantity it - 1));
          [by rewrite decide_True by lia|].
        rewrite decide_False by lia. f_equal. unfold set_quantity. cbn. f_equal. lia.
      * intros pk' Hne. rewrite (Hothers pk' Hne). unfold db'. cbn.
        by apply lookup_alter_ne.
Qed.

(** An item of quantity n, at least 1, survives k < n decreases with
    quantity n - k and is deleted by the n-th; every request redirects, and
    no other item changes. *)
Theorem decrease_counts_down (request : Request) (pk : Z) (it : OrderItem)
    (db : DB) (k : nat) :
  items db !! pk = Some it →
  1 ≤ quantity it →
  Z.of_nat k ≤ quantity it →
  let r := decrease_times k request pk db in
  r.2 = Done tt ∧
  (Z.of_nat k < quantity it →
   items r.1 !! pk = Some (set_quantity (quantity it - Z.of_nat k) it)) ∧
  (Z.of_nat k = quantity it → items r.1 !! pk = None) ∧
  ∀ pk', pk' ≠ pk → items r.1 !! pk' = items db !! pk'.
Proof.
  intros Hit Hq Hk r.
  destruct (decrease_times_steps request pk k db it Hit Hq Hk) as (Hdone & Hpk & Hothers).
  split; [done|]. split; [|split; [|done]].
  - intros Hlt. unfold r. rewrite Hpk. by rewrite decide_False by lia.
  - intros Heq. unfold r. rewrite Hpk. by rewrite decide_True.
Qed.

(** No view introduces a quantity below 1: when every item has quantity 1
    or more, it is still so after an add of quantity 1 or more, after an
    increase, after a decrease and after a remove. *)
Theorem quantities_stay_positive (request : Request) (order product pk : Z)
    (form : AddToCartForm) (db : DB) :
  positive_quantities db →
  1 ≤ form_quantity form →
  positive_quantities (add_or_merge order product form db).1 ∧
  positive_quantities (IncreaseQuantityView_get request pk db).1 ∧
  positive_quantities (DecreaseQuantityView_get request pk db).1 ∧
  positive_quantities (RemoveFromCartView_get request pk db).1.
Proof.
  intros Hpos Hq. split.
  - unfold add_or_merge. case_decide as Hfound.
    + intros k i. cbn. intros [[_ <-]|[_ Hi]]%lookup_insert_Some; [done|].
      by apply (Hpos k).
    + destruct (first _) as [[k0 item]|] eqn:Hfirst; [|done].
      apply first_lookup, map_lookup_filter_Some in Hfirst as [Hitem _].
      pose proof (Hpos _ _ Hitem) as Hitem1.
      intros k i. cbn. intros [[_ <-]|[_ Hi]]%lookup_insert_Some; [cbn; lia|].
      by apply (Hpos k).
  - pose proof (item_views_run request pk db) as Hrun.
    destruct (items db !! pk) as [it|] eqn:Hit;
      destruct Hrun as (-> & -> & ->); cbn [fst]; [|done].
    pose proof (Hpos _ _ Hit) as Hit1.
    split; [|split].
    + intros k i. cbn.
      intros [[-> (x & Hx & ->)]|[_ Hi]]%lookup_alter_Some; [|by apply (Hpos k)].
      rewrite Hit in Hx. injection Hx as <-. cbn. lia.
    + intros k i. destruct (Z.leb_spec (quantity it) 1); cbn.
      * intros [_ Hi]%lookup_delete_Some. by apply (Hpos k).
      * intros [[-> (x & Hx & ->)]|[_ Hi]]%lookup_alter_Some; [|by apply (Hpos k)].
        cbn. lia.
    + intros k i. cbn. intros [_ Hi]%lookup_delete_Some. by apply (Hpos k).
Qed.
End CountingFacts.

(** ** More on the webhook *)

Section WebhookExtras.
Context `{Scalars} `{!Collaborators}.

(** What get hands back is a row of the table that passes the filter. *)
Lemma objects_get_Done {A} (table : DB → gmap Z A) (P : Z * A → Prop)
    `{∀ x, Decision (P x)} (db db' : DB) (row : Z * A) :
  objects_get table P db = (db', Done row) →
  db' = db ∧ table db !! row.1 = Some row.2 ∧ P row.
Proof.
  unfold objects_get.
  destruct (map_to_list (filter P (table db))) as [|[k v] [|? ?]] eqn:Hl; [done| |done].
  intros [= <- <-]. split; [done|].
  apply map_to_list_one in Hl.
  assert (filter P (table db) !! k = Some v) as Hin
    by (rewrite Hl; apply lookup_singleton_eq).
  by apply map_lookup_filter_Some in Hin.
Qed.

(** get raises nothing but DoesNotExist and MultipleObjectsReturned. *)
Lemma objects_get_Raise {A} (table : DB → gmap Z A) (P : Z * A → Prop)
    `{∀ x, Decision (P x)} (db db' : DB) (e : Exn) :
  objects_get table P db = (db', Raise e) →
  db' = db ∧ (e = DoesNotExist ∨ e = MultipleObjectsReturned).
Proof.
  unfold objects_get.
  destruct (map_to_list (filter P (table db))) as [|[k v] [|? ?]];
    intros [= <- <-]; auto.
Qed.

(** Every way the webhook can end: with 400 or with an exception, the
    database as it was, or after the record of the intent was saved. *)
Lemma webhook_cases (clock : Clock) (request : Request) (db : DB) :
  let r := stripe_webhook_view clock request db in
  r = (db, Done (HttpResponse 400)) ∨
  (∃ e, r = (db, Raise e)) ∨
  ∃ pk sp,
    stripe_payments db !! pk = Some sp ∧
    ((∃ o, orders db !! sp_order sp = Some o ∧
           r = (with_orders
                  (with_stripe_payments db
                     (<[pk := set_successful sp]> (stripe_payments db)))
                  (<[sp_order sp := place (DateTime (now clock)) o]> (orders db)),
                Done (HttpResponse 200))) ∨
     (orders db !! sp_order sp = None ∧
      r = (with_stripe_payments db (<[pk := set_successful sp]> (stripe_payments db)),
           Raise DoesNotExist))).
Proof.
  intros r. unfold r.
  destruct (HTTP_STRIPE_SIGNATURE request) as [sig|] eqn:Hsig.
  - rewrite (webhook_with_header _ _ _ _ Hsig).
    destruct (construct_event _ _ _) as [event|e]; [|destruct e; eauto].
    destruct (event_type event) as [kind|]; [|eauto].
    destruct (is_succeeded kind); [|auto].
    destruct (data_object_id event) as [intent|e]; [|eauto].
    destruct (objects_get _ _ db) as [db' [[pk sp]|e]] eqn:Hget.
    + apply objects_get_Done in Hget as (-> & Hsp & _). cbn in Hsp.
      do 2 right. exists pk, sp. split; [done|]. cbn.
      destruct (orders db !! sp_order sp) as [o|]; [left; eauto|right; eauto].
    + apply objects_get_Raise in Hget as (-> & _). eauto.
  - right. left. exists KeyError.
    unfold stripe_webhook_view, bind, lift. by rewrite Hsig.
Qed.

(** The webhook never writes a cart item, a payment attempt, a product or
    a customer, however it ends. *)
Theorem webhook_writes_no_cart (clock : Clock) (request : Request) (db : DB) :
  let r := stripe_webhook_view clock request db in
  items r.1 = items db ∧ payments r.1 = payments db ∧
  products r.1 = products db ∧ customers r.1 = customers db.
Proof.
  intros r. unfold r.
  destruct (webhook_cases clock request db)
    as [->|[(e & ->)|(pk & sp & _ & [(o & _ & ->)|(_ & ->)])]]; done.
Qed.

(** The webhook ends with 200, with 400 or with an exception that nothing
    catches.  The exception is KeyError when the signature header is
    missing; otherwise it is an exception of construct_event other than
    the two the view catches, or AttributeError for a verified event that
    has no type, or, for a verified payment_intent.succeeded event, what
    event.data.object["id"] raises or the DoesNotExist or
    MultipleObjectsReturned of the lookups.  Unless the view ends with 200
    or DoesNotExist, the database is as it was. *)
Theorem webhook_outcomes (clock : Clock) (request : Request) (db : DB) :
  let r := stripe_webhook_view clock request db in
  (r.2 = Done (HttpResponse 200) ∨ r.2 = Done (HttpResponse 400) ∨
   ∃ e, r.2 = Raise e) ∧
  (∀ e, r.2 = Raise e →
     match HTTP_STRIPE_SIGNATURE request with
     | None => e = KeyError
     | Some sig =>
         match construct_event (body request) sig STRIPE_WEBHOOK_SECRET with
         | Raise e' => e = e' ∧ e ≠ ValueError ∧ e ≠ SignatureVerificationError
         | Done ev =>
             (event_type ev = None ∧ e = AttributeError) ∨
             (event_type ev = Some (JStr "payment_intent.succeeded") ∧
              (data_object_id ev = Raise e ∨ e = DoesNotExist ∨
               e = MultipleObjectsReturned))
         end
     end) ∧
  (r.1 = db ∨ r.2 = Done (HttpResponse 200) ∨ r.2 = Raise DoesNotExist).
Proof.
  intros r. unfold r. split; [|split].
  - destruct (webhook_cases clock request db)
      as [->|[(e & ->)|(pk & sp & _ & [(o & _ & ->)|(_ & ->)])]];
      cbn [snd]; eauto.
  - intros e. destruct (HTTP_STRIPE_SIGNATURE request) as [sig|] eqn:Hsig.
    + rewrite (webhook_with_header _ _ _ _ Hsig).
      destruct (construct_event _ _ _) as [event|e'].
      * destruct (event_type event) as [kind|] eqn:Htype;
          [|intros [= <-]; by left].
        destruct (is_succeeded kind) eqn:Hkind; [|done].
        apply is_succeeded_true in Hkind as ->. intros Hraise. right.
        split; [done|].
        destruct (data_object_id event) as [intent|e0];
          [|injection Hraise as <-; by left].
        destruct (objects_get _ _ db) as [db' [[pk sp]|e0]] eqn:Hget.
        -- cbn in Hraise. destruct (orders db !! _); [done|].
           injection Hraise as <-. auto.
        -- apply objects_get_Raise in Hget as (_ & Hwhich).
           injection Hraise as <-. auto.
      * destruct e'; intros [= <-]; done.
    + unfold stripe_webhook_view, bind, lift. rewrite Hsig. by intros [= <-].
  - destruct (webhook_cases clock request db)
      as [->|[(e & ->)|(pk & sp & _ & [(o & _ & ->)|(_ & ->)])]];
      cbn [fst snd]; auto.
Qed.

(** An event whose intent identifier is held by two payment records makes
    the lookup raise MultipleObjectsReturned: no response, nothing
    written. *)
Theorem webhook_ambiguous_intent (clock : Clock) (request : Request) (db : DB)
    (sig : string) (ev : Event) (id : string) (pk1 pk2 : Z)
    (sp1 sp2 : StripePayment) :
  HTTP_STRIPE_SIGNATURE request = Some sig →
  construct_event (body request) sig STRIPE_WEBHOOK_SECRET = Done ev →
  event_type ev = Some (JStr "payment_intent.succeeded") →
  data_object_id ev = Done (JStr id) →
  pk1 ≠ pk2 →
  stripe_payments db !! pk1 = Some sp1 → payment_intent_id sp1 = id →
  stripe_payments db !! pk2 = Some sp2 → payment_intent_id sp2 = id →
  stripe_webhook_view clock request db = (db, Raise MultipleObjectsReturned).
Proof.
  intros Hsig Hev Htype Hid Hne H1 Hid1 H2 Hid2.
  rewrite (webhook_with_header _ _ _ _ Hsig), Hev, Htype, Hid.
  cbn [is_succeeded lookup_text]. rewrite bool_decide_true by done.
  rewrite (objects_get_ambiguous stripe_payments _ db pk1 pk2 sp1 sp2); try done.
  - unfold intent_is. cbn. by rewrite Hid1.
  - unfold intent_is. cbn. by rewrite Hid2.
Qed.

(** The webhook creates and deletes no order and no payment record, changes
    no owner, no order reference, no identifier and no amount, and never
    clears a flag: an ordered order stays ordered, a successful record
    stays successful. *)
Theorem webhook_only_raises_flags (clock : Clock) (request : Request) (db : DB) :
  let r := stripe_webhook_view clock request db in
  dom (orders r.1) = dom (orders db) ∧
  dom (stripe_payments r.1) = dom (stripe_payments db) ∧
  (∀ pk o, orders db !! pk = Some o →
     ∃ o', orders r.1 !! pk = Some o' ∧ order_user o' = order_user o ∧
           (ordered o = true → ordered o' = true)) ∧
  (∀ pk sp, stripe_payments db !! pk = Some sp →
     ∃ sp', stripe_payments r.1 !! pk = Some sp' ∧ sp_order sp' = sp_order sp ∧
            payment_intent_id sp' = payment_intent_id sp ∧
            sp_amount sp' = sp_amount sp ∧
            (successful sp = true → successful sp' = true)).
Proof.
  intros r. unfold r.
  assert (∀ k sp0 pk sp, stripe_payments db !! k = Some sp0 →
            stripe_payments db !! pk = Some sp →
            ∃ sp', <[k := set_successful sp0]> (stripe_payments db) !! pk = Some sp' ∧
                   sp_order sp' = sp_order sp ∧
                   payment_intent_id sp' = payment_intent_id sp ∧
                   sp_amount sp' = sp_amount sp ∧
                   (successful sp = true → successful sp' = true)) as Hrecords.
  { intros k sp0 pk sp Hk Hpk. destruct (decide (k = pk)) as [->|Hne].
    - rewrite lookup_insert_eq. rewrite Hk in Hpk. injection Hpk as ->.
      by exists (set_successful sp).
    - rewrite lookup_insert_ne by done. by exists sp. }
  destruct (webhook_cases clock request db)
    as [->|[(e & ->)|(k & sp0 & Hk & [(o0 & Ho0 & ->)|(_ & ->)])]];
    cbn [fst snd orders stripe_payments with_orders with_stripe_payments].
  1-2: by (split; [done|]; split; [done|]; split; intros pk x Hx; exists x).
  - split; [by apply dom_insert_lookup_L|]. split; [by apply dom_insert_lookup_L|].
    split; [|by eauto].
    intros pk o Ho. destruct (decide (sp_order sp0 = pk)) as [<-|Hne].
    + rewrite lookup_insert_eq. rewrite Ho0 in Ho. injection Ho as ->.
      by exists (place (DateTime (now clock)) o).
    + rewrite lookup_insert_ne by done. by exists o.
  - split; [done|]. split; [by apply dom_insert_lookup_L|].
    split; [|by eauto]. intros pk o Ho. by exists o.
Qed.
End WebhookExtras.

(** ** More on the confirmation callback *)

Section CallbackExtras.
Context `{Scalars} `{!Collaborators}.

(** body["purchase_units"][0]["amount"]["value"] has a value exactly when
    the body is an object whose purchase_units is a list that starts with
    an object whose amount is an object with a value; a str is
    subscriptable by 0 but not by a key, so it never stands in for the
    list. *)
Theorem amount_value_shape (j v : json pyfloat) :
  amount_value j = Done v ↔
  ∃ d rest unit0 amount,
    j = JObj d ∧
    d !! "purchase_units" = Some (JArr (JObj unit0 :: rest)) ∧
    unit0 !! "amount" = Some (JObj amount) ∧
    amount !! "value" = Some v.
Proof.
  split.
  - unfold amount_value, getitem_key, getitem_0.
    destruct j as [| | | | | |d]; try done.
    destruct (d !! "purchase_units") as [units|] eqn:Hunits; [|done].
    destruct units as [| | | |s|l|?]; try done.
    + by destruct s.
    + destruct l as [|unit0 rest]; [done|].
      destruct unit0 as [| | | | | |u]; try done.
      destruct (u !! "amount") as [amount|] eqn:Hamount; [|done].
      destruct amount as [| | | | | |a]; try done.
      destruct (a !! "value") as [w|] eqn:Hvalue; [|done].
      intros [= <-]. by exists d, rest, u, a.
  - intros (d & rest & unit0 & amount & -> & Hunits & Hamount & Hvalue).
    unfold amount_value, getitem_key, getitem_0.
    by rewrite Hunits, Hamount, Hvalue.
Qed.

Lemma getitem_key_raises (j : json pyfloat) (key : string) (e : Exn) :
  getitem_key j key = Raise e → e = KeyError ∨ e = TypeError.
Proof.
  unfold getitem_key. destruct j as [| | | | | |d]; try (intros [= <-]; auto).
  destruct (d !! key); intros [= <-]; auto.
Qed.

Lemma amount_value_raises (j : json pyfloat) (e : Exn) :
  amount_value j = Raise e → e = KeyError ∨ e = IndexError ∨ e = TypeError.
Proof.
  unfold amount_value.
  destruct (getitem_key j "purchase_units") as [units|e1] eqn:H1.
  - destruct (getitem_0 units) as [unit0|e2] eqn:H2.
    + destruct (getitem_key unit0 "amount") as [amount|e3] eqn:H3.
      * intros [?|?]%getitem_key_raises; auto.
      * intros [= <-]. apply getitem_key_raises in H3 as [?|?]; auto.
    + intros [= <-]. unfold getitem_0 in H2.
      destruct units as [| | | |s|l|?]; try (injection H2 as <-; auto).
      * destruct s; [injection H2 as <-; auto|done].
      * destruct l; [injection H2 as <-; auto|done].
  - intros [= <-]. apply getitem_key_raises in H1 as [?|?]; auto.
Qed.

Lemma py_float_raises (v : json pyfloat) (e : Exn) :
  py_float v = Raise e → e = ValueError ∨ e = TypeError ∨ e = OverflowError.
Proof.
  unfold py_float. destruct v as [| |z| |s| |]; try (intros [= <-]; auto); try done.
  - destruct (float_of_int z); [done|]. intros [= <-]; auto.
  - destruct (float_of_str s); [done|]. intros [= <-]; auto.
Qed.

(** The callback after the session lookup, step by step. *)
Lemma callback_after_session (clock : Clock) (request : Request) (db db1 : DB)
    (order : Z) :
  get_or_set_order_session request db = (db1, Done order) →
  ConfirmOrderView_post clock request db =
    match json_loads (body request) with
    | Raise e => (db1, Raise e)
    | Done j =>
        match amount_value j with
        | Raise e => (db1, Raise e)
        | Done v =>
            match py_float v with
            | Raise e => (db1, Raise e)
            | Done a =>
                let logged := with_payments db1 (payments db1 ++ [attempt order j a]) in
                match orders db1 !! order with
                | Some _ =>
                    (with_orders logged
                       (alter (place (Date (today clock))) order (orders db1)),
                     Done (JsonResponse (JObj {[ "data" := JStr "Success" ]})))
                | None => (logged, Raise DatabaseError)
                end
            end
        end
    end.
Proof.
  intros Hsession. unfold ConfirmOrderView_post, bind at 1. rewrite Hsession.
  unfold bind, lift, write, save_update_fields, ret.
  destruct (json_loads (body request)) as [j|e]; [|done].
  destruct (amount_value j) as [v|e]; [|done].
  destruct (py_float v) as [a|e]; [|done].
  cbn. by destruct (orders db1 !! order).
Qed.

(** With the order of the session in the table, the callback is all or
    nothing: either the body decodes, holds the value and float() accepts
    it, and then the attempt is recorded, the order placed and the answer
    given; or the view raises and has written nothing after the session
    lookup.  What it raises is what json.loads raised, or the KeyError,
    IndexError or TypeError of a subscript, or the TypeError, ValueError or
    OverflowError of float(). *)
Theorem callback_all_or_nothing (clock : Clock) (request : Request) (db db1 : DB)
    (order : Z) (o : Order) :
  get_or_set_order_session request db = (db1, Done order) →
  orders db1 !! order = Some o →
  let r := ConfirmOrderView_post clock request db in
  ((∃ j v a,
      json_loads (body request) = Done j ∧ amount_value j = Done v ∧
      py_float v = Done a ∧
      r = (with_orders (with_payments db1 (payments db1 ++ [attempt order j a]))
             (alter (place (Date (today clock))) order (orders db1)),
           Done (JsonResponse (JObj {[ "data" := JStr "Success" ]})))) ∨
   (∃ e, r = (db1, Raise e) ∧
         (json_loads (body request) = Raise e ∨
          (∃ j, json_loads (body request) = Done j ∧ amount_value j = Raise e ∧
                (e = KeyError ∨ e = IndexError ∨ e = TypeError)) ∨
          (∃ j v, json_loads (body request) = Done j ∧ amount_value j = Done v ∧
                  py_float v = Raise e ∧
                  (e = TypeError ∨ e = ValueError ∨ e = OverflowError))))) ∧
  (∀ e, json_loads (body request) = Raise e → r = (db1, Raise e)).
Proof.
  intros Hsession Ho r. unfold r.
  rewrite (callback_after_session clock request db db1 order Hsession).
  destruct (json_loads (body request)) as [j|e0] eqn:Hjson;
    [|split; [right; eauto|by intros e [= <-]]].
  split; [|done].
  destruct (amount_value j) as [v|e] eqn:Hvalue.
  - destruct (py_float v) as [a|e] eqn:Hfloat.
    + left. exists j, v, a. cbn. by rewrite Ho.
    + right. exists e. split; [done|]. right. right. exists j, v.
      split; [done|]. split; [done|]. split; [done|].
      apply py_float_raises in Hfloat as [?|[?|?]]; auto.
  - right. exists e. split; [done|]. right. left. exists j.
    split; [done|]. split; [done|].
    apply amount_value_raises in Hvalue as [?|[?|?]]; auto.
Qed.

(** However the callback ends, after the session lookup it writes no cart
    item, no payment record, no product and no customer, creates and
    deletes no order, and the log of attempts only grows, by at most one
    successful attempt for the order of the session. *)
Theorem callback_appends_only (clock : Clock) (request : Request) (db db1 : DB)
    (order : Z) :
  get_or_set_order_session request db = (db1, Done order) →
  let r := ConfirmOrderView_post clock request db in
  items r.1 = items db1 ∧ stripe_payments r.1 = stripe_payments db1 ∧
  products r.1 = products db1 ∧ customers r.1 = customers db1 ∧
  dom (orders r.1) = dom (orders db1) ∧
  (payments r.1 = payments db1 ∨
   ∃ p, payments r.1 = (payments db1 ++ [p])%list ∧
        pay_order p = order ∧ pay_successful p = true).
Proof.
  intros Hsession r. unfold r.
  rewrite (callback_after_session clock request db db1 order Hsession).
  destruct (json_loads (body request)) as [j|e]; [|by repeat split; auto].
  destruct (amount_value j) as [v|e]; [|by repeat split; auto].
  destruct (py_float v) as [a|e]; [|by repeat split; auto].
  cbn. destruct (orders db1 !! order) as [o|] eqn:Ho; cbn.
  - repeat split; try done.
    + apply dom_alter_L.
    + right. by exists (attempt order j a).
  - repeat split; try done. right. by exists (attempt order j a).
Qed.
End CallbackExtras.

(** ** More on the payment record and the payment views *)

Section PaymentExtras.
Context `{Scalars} `{!Collaborators}.

(** get_or_create on an order with at most one payment record succeeds,
    keeps every record there was, and leaves the order with exactly one
    record; asked again, it hands back the same record and writes
    nothing. *)
Theorem get_or_create_once (order : Z) (db : DB) :
  (∀ pk1 pk2 sp1 sp2,
     stripe_payments db !! pk1 = Some sp1 → sp_order sp1 = order →
     stripe_payments db !! pk2 = Some sp2 → sp_order sp2 = order → pk1 = pk2) →
  ∃ row db',
    get_or_create order db = (db', Done row) ∧
    get_or_create order db' = (db', Done row) ∧
    records_of db' order = {[ row.1 := row.2 ]} ∧
    sp_order row.2 = order ∧
    ∀ pk sp, stripe_payments db !! pk = Some sp → stripe_payments db' !! pk = Some sp.
Proof.
  intros Hmost. unfold get_or_create at 1. unfold objects_get.
  destruct (map_to_list (filter (order_is order) (stripe_payments db)))
    as [|[k v] [|[k2 v2] l]] eqn:Hl.
  - apply map_to_list_empty_iff in Hl.
    set (created := {| sp_order := order; payment_intent_id := EmptyString;
                       sp_amount := None; successful := false |}).
    set (pk := new_pk (stripe_payments db)).
    set (db' := with_stripe_payments db (<[pk := created]> (stripe_payments db))).
    assert (records_of db' order = {[ pk := created ]}) as Hrecords.
    { unfold records_of, db'. cbn.
      rewrite map_filter_insert_True by done. rewrite Hl. apply insert_empty. }
    exists (pk, created), db'. split; [done|]. split; [|split; [done|split; [done|]]].
    + unfold get_or_create, objects_get. fold (records_of db' order).
      by rewrite Hrecords, map_to_list_singleton.
    + intros k sp Hsp. unfold db'. cbn. rewrite lookup_insert_ne; [done|].
      intros <-. unfold pk in Hsp. by rewrite new_pk_fresh in Hsp.
  - apply map_to_list_one in Hl.
    assert (filter (order_is order) (stripe_payments db) !! k = Some v) as Hin
      by (rewrite Hl; apply lookup_singleton_eq).
    apply map_lookup_filter_Some in Hin as [_ Hv].
    exists (k, v), db. split; [done|]. split; [|by split].
    unfold get_or_create, objects_get. by rewrite Hl, map_to_list_singleton.
  - exfalso.
    pose proof (NoDup_fst_map_to_list (filter (order_is order) (stripe_payments db)))
      as Hnodup.
    assert (filter (order_is order) (stripe_payments db) !! k = Some v) as H1
      by (apply elem_of_map_to_list; rewrite Hl; apply list_elem_of_here).
    assert (filter (order_is order) (stripe_payments db) !! k2 = Some v2) as H2
      by (apply elem_of_map_to_list; rewrite Hl;
          apply list_elem_of_further, list_elem_of_here).
    apply map_lookup_filter_Some in H1 as [H1 P1].
    apply map_lookup_filter_Some in H2 as [H2 P2].
    rewrite Hl in Hnodup. cbn in Hnodup.
    apply NoDup_cons in Hnodup as [Hk _]. apply Hk.
    rewrite (Hmost k k2 v v2 H1 P1 H2 P2). apply list_elem_of_here.
Qed.

(** With two payment records for the order, get_or_create raises
    MultipleObjectsReturned and writes nothing. *)
Theorem get_or_create_ambiguous (order : Z) (db : DB) (pk1 pk2 : Z)
    (sp1 sp2 : StripePayment) :
  pk1 ≠ pk2 →
  stripe_payments db !! pk1 = Some sp1 → sp_order sp1 = order →
  stripe_payments db !! pk2 = Some sp2 → sp_order sp2 = order →
  get_or_create order db = (db, Raise MultipleObjectsReturned).
Proof.
  intros Hne H1 Ho1 H2 Ho2. unfold get_or_create.
  by rewrite (objects_get_ambiguous stripe_payments _ db pk1 pk2 sp1 sp2).
Qed.

Lemma page_known_identity (stripe : Stripe) (request : Request) (db : DB)
    (uid : Z) (customer : Customer) :
  user request = Some uid →
  customers db !! uid = Some customer →
  stripe_customer_id customer ≠ EmptyString →
  StripePaymentView_get_context_data stripe request db
    = page_for_identity stripe request (stripe_customer_id customer) db.
Proof.
  intros Huser Hcustomer Hid.
  unfold StripePaymentView_get_context_data, bind at 1, user_customer.
  rewrite Huser, Hcustomer. cbn [fst snd]. rewrite decide_False by done.
  reflexivity.
Qed.

Lemma page_new_identity (stripe : Stripe) (request : Request) (db : DB)
    (uid : Z) (customer : Customer) (new_id : string) :
  user request = Some uid →
  customers db !! uid = Some customer →
  stripe_customer_id customer = EmptyString →
  Customer_create stripe = Done new_id →
  StripePaymentView_get_context_data stripe request db
    = page_for_identity stripe request new_id
        (with_customers db
           (alter (λ _, {| stripe_customer_id := new_id |}) uid (customers db))).
Proof.
  intros Huser Hcustomer Hempty Hcreate.
  unfold StripePaymentView_get_context_data, bind at 1, user_customer.
  rewrite Huser, Hcustomer. cbn [fst snd]. rewrite decide_True by done.
  unfold bind at 1. unfold bind at 1, lift. rewrite Hcreate.
  unfold bind at 1, save_update_fields. rewrite Hcustomer.
  reflexivity.
Qed.

(** The payment page of a customer without processor identity first
    creates one and saves it on the customer; from there on the page is the
    page of a customer who has that identity.  When the processor refuses
    to create it, the page raises and nothing is written. *)
Theorem payment_page_new_customer (stripe : Stripe) (request : Request) (db : DB)
    (uid : Z) (customer : Customer) :
  user request = Some uid →
  customers db !! uid = Some customer →
  stripe_customer_id customer = EmptyString →
  (∀ new_id,
     Customer_create stripe = Done new_id → new_id ≠ EmptyString →
     let saved := with_customers db
                    (alter (λ _, {| stripe_customer_id := new_id |}) uid (customers db)) in
     customers saved !! uid = Some {| stripe_customer_id := new_id |} ∧
     StripePaymentView_get_context_data stripe request db
       = StripePaymentView_get_context_data stripe request saved) ∧
  (∀ e, Customer_create stripe = Raise e →
        StripePaymentView_get_context_data stripe request db = (db, Raise e)).
Proof.
  intros Huser Hcustomer Hempty. split.
  - intros new_id Hcreate Hnew saved.
    assert (customers saved !! uid = Some {| stripe_customer_id := new_id |}) as Hsaved
      by (unfold saved; cbn; by rewrite lookup_alter_eq, Hcustomer).
    split; [done|].
    rewrite (page_new_identity stripe request db uid customer new_id) by done.
    by rewrite (page_known_identity stripe request saved uid
                  {| stripe_customer_id := new_id |}).
  - intros e Hcreate.
    unfold StripePaymentView_get_context_data, bind at 1, user_customer.
    rewrite Huser, Hcustomer. cbn [fst snd]. rewrite decide_True by done.
    unfold bind, lift. by rewrite Hcreate.
Qed.

(** The first payment page for an order without payment record saves one
    new record for it, not yet successful, whose identifier is the text of
    the tuple; the context carries the client secret of the intent and one
    entry per card of the processor, in its order. *)
Theorem payment_page_first_visit (stripe : Stripe) (request : Request) (db db1 : DB)
    (uid : Z) (customer : Customer) (order : Z) (intent : Intent) (cards : list Card) :
  user request = Some uid →
  customers db !! uid = Some customer →
  stripe_customer_id customer ≠ EmptyString →
  get_or_set_order_session request db = (db1, Done order) →
  PaymentIntent_create stripe (get_raw_total db1 order) (stripe_customer_id customer)
    = Done intent →
  (∀ pk sp, stripe_payments db1 !! pk = Some sp → sp_order sp ≠ order) →
  PaymentMethod_list stripe (stripe_customer_id customer) = Done cards →
  let r := StripePaymentView_get_context_data stripe request db in
  r.2 = Done {| ctx_STRIPE_PUBLIC_KEY := STRIPE_PUBLIC_KEY;
                ctx_client_secret := client_secret intent;
                ctx_payment_methods := card_entry <$> cards |} ∧
  (∃ amount,
     records_of r.1 order
       = {[ new_pk (stripe_payments db1) :=
              {| sp_order := order;
                 payment_intent_id := str_of_tuple1 (intent_id intent);
                 sp_amount := Some amount; successful := false |} ]}) ∧
  (∀ pk sp, stripe_payments db1 !! pk = Some sp → stripe_payments r.1 !! pk = Some sp) ∧
  orders r.1 = orders db1 ∧ items r.1 = items db1 ∧ payments r.1 = payments db1.
Proof.
  intros Huser Hcustomer Hid Hsession Hintent Hnone Hcards r.
  set (created := {| sp_order := order; payment_intent_id := EmptyString;
                     sp_amount := None; successful := false |}).
  set (pk := new_pk (stripe_payments db1)).
  set (db2 := with_stripe_payments db1 (<[pk := created]> (stripe_payments db1))).
  set (saved := set_intent (str_of_tuple1 (intent_id intent)) (get_total db2 order) created).
  assert (r = (with_stripe_payments db2 (<[pk := saved]> (stripe_payments db1)),
               Done {| ctx_STRIPE_PUBLIC_KEY := STRIPE_PUBLIC_KEY;
                       ctx_client_secret := client_secret intent;
                       ctx_payment_methods := card_entry <$> cards |})) as ->.
  { unfold r, StripePaymentView_get_context_data, bind at 1, user_customer.
    rewrite Huser, Hcustomer. cbn [fst snd].
    rewrite decide_False by done.
    unfold bind at 1, ret. unfold bind at 1. rewrite Hsession.
    unfold bind at 1, read. unfold bind at 1, lift. rewrite Hintent.
    unfold bind at 1. rewrite (get_or_create_creates order db1 Hnone).
    fold created pk db2.
    unfold bind, save_intent, save_update_fields. cbn [fst snd].
    assert (stripe_payments db2 !! pk = Some created) as ->
      by (unfold db2; cbn; apply lookup_insert_eq).
    rewrite Hcards. f_equal. unfold db2 at 2. cbn [stripe_payments with_stripe_payments].
    f_equal. fold saved.
    apply map_eq. intros k. unfold saved, db2.
    cbn [stripe_payments with_stripe_payments].
    destruct (decide (k = pk)) as [->|Hne].
    - by rewrite lookup_alter_eq, !lookup_insert_eq.
    - by rewrite lookup_alter_ne, !lookup_insert_ne. }
  cbn [fst snd]. split; [done|]. split; [|split; [|done]].
  - exists (get_total db2 order). unfold records_of. cbn.
    rewrite map_filter_insert_True by done.
    rewrite (filter_none (order_is order) (stripe_payments db1)).
    + apply insert_empty.
    + intros k sp Hsp. unfold order_is. cbn. by apply (Hnone k).
  - intros k sp Hsp. cbn. rewrite lookup_insert_ne; [done|].
    intros <-. unfold pk in Hsp. by rewrite new_pk_fresh in Hsp.
Qed.
End PaymentExtras.

(** ** The saved-card view when the charge fails *)

Section SavedCardExtras.
Context `{Scalars} `{!Collaborators}.

(** Both payment views need a logged-in user: for the anonymous user the
    payment page raises AttributeError before it writes or asks the
    processor anything, and the saved-card view raises it right after the
    session lookup, however the processor would answer. *)
Theorem payment_views_need_a_user (stripe : Stripe) (request : Request) (db db1 : DB)
    (order : Z) (card : string) :
  user request = None →
  get_or_set_order_session request db = (db1, Done order) →
  card ≠ "newCard" →
  StripePaymentView_get_context_data stripe request db = (db, Raise AttributeError) ∧
  StripePaymentView_form_valid stripe request card db = (db1, Raise AttributeError).
Proof.
  intros Huser Hsession Hcard. split.
  - unfold StripePaymentView_get_context_data, bind at 1, user_customer.
    by rewrite Huser.
  - unfold StripePaymentView_form_valid, bind at 1.
    rewrite decide_True by done.
    unfold try_except_CardError, bind at 1. rewrite Hsession.
    unfold bind at 1, read. unfold bind at 1, user_customer.
    by rewrite Huser.
Qed.

(** When the processor refuses the saved card, nothing is written after
    the session lookup.  A CardError is caught.  When its code and the id
    of its payment intent can be read, the view asks the processor for
    that intent and redirects to the start page (or raises what that
    request raises); when reading them raises (TypeError for an error
    whose payment_intent is None), that exception leaves the view.  Any
    other error of the processor leaves the view uncaught. *)
Theorem saved_card_refused (stripe : Stripe) (request : Request) (db db1 : DB)
    (uid : Z) (customer : Customer) (order : Z) (card : string) (e : Exn) :
  card ≠ "newCard" →
  get_or_set_order_session request db = (db1, Done order) →
  user request = Some uid →
  customers db1 !! uid = Some customer →
  PaymentIntent_confirm stripe (get_raw_total db1 order) (stripe_customer_id customer) card
    = Raise e →
  let r := StripePaymentView_form_valid stripe request card db in
  r.1 = db1 ∧
  (∀ intent, e = CardError (inr intent) →
     r.2 = match PaymentIntent_retrieve stripe intent with
           | Done _ => Done (Redirect "/")
           | Raise e' => Raise e'
           end) ∧
  (∀ e', e = CardError (inl e') → r.2 = Raise e') ∧
  ((∀ read, e ≠ CardError read) → r.2 = Raise e).
Proof.
  intros Hcard Hsession Huser Hcustomer Hconfirm r.
  assert (r = match e with
              | CardError (inr intent) =>
                  (db1, match PaymentIntent_retrieve stripe intent with
                        | Done _ => Done (Redirect "/")
                        | Raise e' => Raise e'
                        end)
              | CardError (inl e') => (db1, Raise e')
              | _ => (db1, Raise e)
              end) as ->.
  { unfold r, StripePaymentView_form_valid, bind at 1.
    rewrite decide_True by done.
    unfold try_except_CardError, bind at 1. rewrite Hsession.
    unfold bind at 1, read. unfold bind at 1, user_customer.
    rewrite Huser, Hcustomer. unfold bind at 1, lift. cbn [fst snd].
    rewrite Hconfirm.
    destruct e as [| | | | | | | | | | | |[e'|intent]|]; try done.
    unfold ret. by destruct (PaymentIntent_retrieve stripe intent) as [[]|]. }
  split; [by destruct e as [| | | | | | | | | | | |[e'|intent]|]|].
  split; [|split].
  - by intros intent ->.
  - by intros e' ->.
  - intros Hother. destruct e as [| | | | | | | | | | | |read|]; try done.
    by destruct (Hother read).
Qed.

(** Choosing a new card on the saved-card form does nothing at all: no
    session lookup, no request to the processor, no write; the view
    redirects to the start page.  With any other choice the view starts
    with the session lookup. *)
Theorem saved_card_new_card (stripe : Stripe) (request : Request) (db db1 : DB)
    (card : string) (e : Exn) :
  StripePaymentView_form_valid stripe request "newCard" db = (db, Done (Redirect "/")) ∧
  (card ≠ "newCard" →
   get_or_set_order_session request db = (db1, Raise e) →
   (∀ read, e ≠ CardError read) →
   StripePaymentView_form_valid stripe request card db = (db1, Raise e)).
Proof.
  split; [done|]. intros Hcard Hsession Hother.
  unfold StripePaymentView_form_valid, bind at 1.
  rewrite decide_True by done.
  unfold try_except_CardError, bind at 1. rewrite Hsession.
  destruct e as [| | | | | | | | | | | |read|]; try done.
  by destruct (Hother read).
Qed.
End SavedCardExtras.

(** ** The settings *)

Section SettingsFacts.
Import Settings.

(** The production block of the settings is dead: DEBUG is the str that
    env() returns, never the bool False, so whatever the environment, a
    module that loads has the development values (every host allowed, the
    console mail backend, sqlite, the sandbox PayPal credentials) and none
    of the security settings, and the live PayPal variables are never
    read. *)
Theorem production_block_never_runs (env : Env) (s : Settings) :
  load env = Some s →
  ALLOWED_HOSTS s = ["*"] ∧
  EMAIL_BACKEND s = "django.core.mail.backends.console.EmailBackend" ∧
  DATABASE_ENGINE s = "django.db.backends.sqlite3" ∧
  Some (PAYPAL_CLIENT_ID s) = env "PAYPAL_SANDBOX_CLIENT_ID" ∧
  Some (PAYPAL_SECRET_KEY s) = env "PAYPAL_SANDBOX_SECRET_KEY" ∧
  SESSION_COOKIE_SECURE s = None ∧ SECURE_SSL_REDIRECT s = None ∧
  SECURE_HSTS_SECONDS s = None ∧
  (∃ text, env "DEBUG" = Some text ∧ DEBUG s = PyStr text) ∧
  ∀ env' : Env,
    (∀ name, name ≠ "PAYPAL_LIVE_CLIENT_ID" → name ≠ "PAYPAL_LIVE_SECRET_KEY" →
             env' name = env name) →
    load env' = Some s.
Proof.
  intros Hload.
  assert (∀ env' : Env,
            (∀ name, name ≠ "PAYPAL_LIVE_CLIENT_ID" → name ≠ "PAYPAL_LIVE_SECRET_KEY" →
                     env' name = env name) →
            load env' = load env) as Hsame.
  { intros env' Hagree. unfold load. cbn [is_False DEBUG].
    rewrite (Hagree "SECRET_KEY"), (Hagree "DEBUG"), (Hagree "DEFAULT_FROM_EMAIL"),
      (Hagree "NOTIFY_EMAIL"), (Hagree "PAYPAL_SANDBOX_CLIENT_ID"),
      (Hagree "PAYPAL_SANDBOX_SECRET_KEY"), (Hagree "STRIPE_PUBLIC_KEY"),
      (Hagree "STRIPE_SECRET_KEY"), (Hagree "STRIPE_WEBHOOK_SECRET") by done.
    reflexivity. }
  pose proof Hload as Hkeep. unfold load in Hload.
  destruct (env "SECRET_KEY"); [|done].
  destruct (env "DEBUG") as [text|]; [|done].
  destruct (env "DEFAULT_FROM_EMAIL"); [|done].
  destruct (env "NOTIFY_EMAIL"); [|done].
  destruct (env "PAYPAL_SANDBOX_CLIENT_ID"); [|done].
  destruct (env "PAYPAL_SANDBOX_SECRET_KEY"); [|done].
  destruct (env "STRIPE_PUBLIC_KEY"); [|done].
  destruct (env "STRIPE_SECRET_KEY"); [|done].
  destruct (env "STRIPE_WEBHOOK_SECRET"); [|done].
  cbn in Hload. injection Hload as <-. cbn.
  repeat split; try done; [by exists text|].
  intros env' Hagree. rewrite (Hsame env' Hagree). exact Hkeep.
Qed.
End SettingsFacts.

(** ** The further properties at work in the sample world *)

Module MoreExamples.
Import Sample Fixtures Scenarios.

(** Alice adds three more red M shirts by the slug of the product. *)
Lemma add_view_redirects_witness :
  (ProductDetailView_form_valid alice "shirt" (shirt_form 3) cart).2
    = Done (Redirect "cart:summary") ∧
  items (ProductDetailView_form_valid alice "shirt" (shirt_form 3) cart).1 !! 10
    = Some (shirts 5).
Proof.
  rewrite (add_view_redirects alice "shirt" (shirt_form 3) cart cart 1 7
             {| slug := "shirt"; price := 1000 |}).
  - split; [reflexivity | vm_compute; reflexivity].
  - vm_compute. reflexivity.
  - vm_compute. reflexivity.
  - reflexivity.
  - intros pk' p' Hp _. cbn [products cart] in Hp.
    by apply lookup_singleton_Some in Hp as [<- _].
Defined.

(** There is no product with the slug hat. *)
Lemma add_view_unknown_slug_witness :
  ProductDetailView_post alice "hat" (Some (shirt_form 3)) cart = (cart, Raise Http404).
Proof.
  apply (add_view_unknown_slug alice "hat" (Some (shirt_form 3)) cart).
  intros pk p Hp. cbn [products cart] in Hp.
  apply lookup_singleton_Some in Hp as [_ <-]. vm_compute. discriminate.
Defined.

(** Adding a blue L shirt leaves the red M shirts as they are. *)
Lemma add_or_merge_keeps_other_items_witness :
  items (add_or_merge 1 7 blue_form cart).1 !! 10 = Some (shirts 2).
Proof.
  apply (add_or_merge_keeps_other_items 1 7 blue_form cart 10 (shirts 2)).
  - vm_compute. reflexivity.
  - intros (_ & _ & Hcolour & _). vm_compute in Hcolour. discriminate.
Defined.


(** One more shirt and one less: the cart as before. *)
Lemma increase_then_decrease_witness :
  DecreaseQuantityView_get alice 10 (IncreaseQuantityView_get alice 10 cart).1
    = (cart, Done (Redirect "cart:summary")).
Proof.
  apply (increase_then_decrease alice 10 (shirts 2) cart).
  - vm_compute. reflexivity.
  - vm_compute. discriminate.
Defined.

(** Once the shirts are removed, an increase finds nothing. *)
Lemma gone_is_gone_witness :
  IncreaseQuantityView_get alice 10 (RemoveFromCartView_get alice 10 cart).1
    = ((RemoveFromCartView_get alice 10 cart).1, Raise Http404).
Proof.
  destruct (gone_is_gone alice 10 (shirts 2) cart (RemoveFromCartView_get alice 10 cart).1)
    as (_ & Hincrease & _).
  - vm_compute. reflexivity.
  - left. reflexivity.
  - exact Hincrease.
Defined.

(** Two decreases take the two shirts out of the cart. *)
Lemma decrease_counts_down_witness :
  (decrease_times 2 alice 10 cart).2 = Done tt ∧
  items (decrease_times 2 alice 10 cart).1 !! 10 = None.
Proof.
  destruct (decrease_counts_down alice 10 (shirts 2) cart 2)
    as (Hdone & _ & Hgone & _).
  - vm_compute. reflexivity.
  - vm_compute. discriminate.
  - vm_compute. discriminate.
  - split; [exact Hdone|]. apply Hgone. reflexivity.
Defined.

Lemma cart_is_positive : positive_quantities cart.
Proof.
  intros pk it Hit. cbn [items cart] in Hit.
  apply lookup_singleton_Some in Hit as [_ <-]. vm_compute. discriminate.
Defined.

(** The cart keeps its quantities at 1 or more under an add of 3. *)
Lemma quantities_stay_positive_witness :
  positive_quantities (add_or_merge 1 7 (shirt_form 3) cart).1 ∧
  positive_quantities (DecreaseQuantityView_get alice 10 cart).1.
Proof.
  destruct (quantities_stay_positive alice 1 7 10 (shirt_form 3) cart)
    as (Hadd & _ & Hdecrease & _).
  - exact cart_is_positive.
  - vm_compute. discriminate.
  - split; [exact Hadd | exact Hdecrease].
Defined.

(** The records 5 and 6 both hold pi_123: the event for it finds two. *)
Lemma webhook_ambiguous_intent_witness :
  stripe_webhook_view noon (succeeded "pi_123") twins
    = (twins, Raise MultipleObjectsReturned).
Proof.
  apply (webhook_ambiguous_intent noon (succeeded "pi_123") twins "whsec_test"
           {| event_type := Some (JStr "payment_intent.succeeded");
              data_object_id := Done (JStr "pi_123") |}
           "pi_123" 5 6 (record "pi_123" false) (record "pi_123" false));
    try reflexivity; try (vm_compute; reflexivity).
  discriminate.
Defined.

(** The paid callback on the cart takes the first alternative; the one with
    a null value, the one with the value 10 ** 400 and the one that is not
    JSON take the second. *)
Lemma callback_all_or_nothing_witness :
  (ConfirmOrderView_post noon (callback paid_body) cart).2
    = Done (JsonResponse (JObj {[ "data" := JStr "Success" ]})) ∧
  ConfirmOrderView_post noon (callback null_body) cart = (cart, Raise TypeError) ∧
  ConfirmOrderView_post noon (callback huge_body) cart = (cart, Raise OverflowError) ∧
  ConfirmOrderView_post noon (callback "garbage") cart = (cart, Raise ValueError).
Proof.
  destruct (callback_all_or_nothing noon (callback paid_body) cart cart 1 (open_order 1))
    as [[(j & v & a & _ & _ & _ & ->)|(e & Hraise & _)] _];
    try (vm_compute; reflexivity).
  - split; [reflexivity|]. split; [|split]; vm_compute; reflexivity.
  - vm_compute in Hraise. discriminate Hraise.
Defined.

(** The paid callback appends its one attempt to the empty log. *)
Lemma callback_appends_only_witness :
  items (ConfirmOrderView_post noon (callback paid_body) cart).1 = items cart ∧
  (payments (ConfirmOrderView_post noon (callback paid_body) cart).1 = payments cart ∨
   ∃ p, payments (ConfirmOrderView_post noon (callback paid_body) cart).1
          = (payments cart ++ [p])%list ∧
        pay_order p = 1 ∧ pay_successful p = true).
Proof.
  destruct (callback_appends_only noon (callback paid_body) cart cart 1)
    as (Hitems & _ & _ & _ & _ & Hlog).
  - vm_compute. reflexivity.
  - split; [exact Hitems | exact Hlog].
Defined.

(** Order 1 of the cart has its record 5; asking for it writes nothing. *)
Lemma get_or_create_once_witness :
  ∃ row db', get_or_create 1 cart = (db', Done row) ∧
             get_or_create 1 db' = (db', Done row) ∧
             records_of db' 1 = {[ row.1 := row.2 ]}.
Proof.
  destruct (get_or_create_once 1 cart) as (row & db' & Hfirst & Hagain & Hone & _).
  - intros pk1 pk2 sp1 sp2 H1 _ H2 _. cbn [stripe_payments cart] in H1, H2.
    apply lookup_singleton_Some in H1 as [<- _].
    by apply lookup_singleton_Some in H2 as [<- _].
  - by exists row, db'.
Defined.

(** Order 1 has the records 5 and 6. *)
Lemma get_or_create_ambiguous_witness :
  get_or_create 1 twins = (twins, Raise MultipleObjectsReturned).
Proof.
  apply (get_or_create_ambiguous 1 twins 5 6 (record "pi_123" false)
           (record "pi_123" false));
    try reflexivity; try (vm_compute; reflexivity).
  discriminate.
Defined.

(** Alice's first payment page gives her the identity cus_new. *)
Lemma payment_page_new_customer_witness :
  customers (StripePaymentView_get_context_data processor alice newcomer).1 !! 1
    = Some {| stripe_customer_id := "cus_new" |}.
Proof.
  destruct (payment_page_new_customer processor alice newcomer 1
              {| stripe_customer_id := EmptyString |} eq_refl eq_refl eq_refl)
    as [Hnew _].
  destruct (Hnew "cus_new" eq_refl) as [_ ->]; [discriminate|].
  vm_compute. reflexivity.
Defined.

(** The first payment page for the empty cart saves one record. *)
Lemma payment_page_first_visit_witness :
  ∃ amount,
    records_of (StripePaymentView_get_context_data processor alice empty_cart).1 1
      = {[ new_pk (stripe_payments empty_cart) :=
             {| sp_order := 1; payment_intent_id := "('pi_456',)";
                sp_amount := Some amount; successful := false |} ]}.
Proof.
  destruct (payment_page_first_visit processor alice empty_cart empty_cart 1
              {| stripe_customer_id := "cus_1" |} 1
              {| intent_id := "pi_456"; client_secret := "pi_456_secret" |} [])
    as (_ & Hrecord & _);
    try reflexivity; try (vm_compute; reflexivity).
  - discriminate.
  - intros pk sp Hsp. cbn [stripe_payments empty_cart] in Hsp.
    by rewrite lookup_empty in Hsp.
  - exact Hrecord.
Defined.

(** Without login the payment page raises AttributeError. *)
Lemma payment_views_need_a_user_witness :
  StripePaymentView_get_context_data processor anonymous cart
    = (cart, Raise AttributeError) ∧
  (StripePaymentView_form_valid processor anonymous "pm_1" cart).2
    = Raise AttributeError.
Proof.
  destruct (payment_views_need_a_user processor anonymous cart
              (resolve_open_order anonymous cart).1 2 "pm_1") as [Hpage Hcard].
  - reflexivity.
  - vm_compute. reflexivity.
  - discriminate.
  - split; [exact Hpage|]. by rewrite Hcard.
Defined.

(** The declined card: nothing written, a redirect to the start page; and
    when the error names no intent, a TypeError. *)
Lemma saved_card_refused_witness :
  StripePaymentView_form_valid declining alice "pm_1" cart = (cart, Done (Redirect "/")) ∧
  StripePaymentView_form_valid blocking alice "pm_1" cart = (cart, Raise TypeError).
Proof.
  destruct (saved_card_refused declining alice cart cart 1
              {| stripe_customer_id := "cus_1" |} 1 "pm_1"
              (CardError (inr "pi_789")))
    as (Hdb & Hcaught & _).
  - discriminate.
  - vm_compute. reflexivity.
  - reflexivity.
  - vm_compute. reflexivity.
  - reflexivity.
  - specialize (Hcaught _ eq_refl). cbn in Hcaught.
    split; [|vm_compute; reflexivity].
    destruct (StripePaymentView_form_valid declining alice "pm_1" cart) as [db' res].
    cbn in Hdb, Hcaught. by subst.
Defined.

(** DEBUG=False in the environment, and still the development settings;
    the module loads although the live PayPal variables are missing. *)
Lemma production_block_never_runs_witness :
  ∃ s, Settings.load (λ name, Settings.deployed !! name) = Some s ∧
       Settings.ALLOWED_HOSTS s = ["*"] ∧
       Settings.SECURE_SSL_REDIRECT s = None ∧
       Settings.PAYPAL_CLIENT_ID s = "sb_id".
Proof.
  destruct (Settings.load (λ name, Settings.deployed !! name)) as [s|] eqn:Hload;
    [|vm_compute in Hload; discriminate Hload].
  destruct (production_block_never_runs _ s Hload)
    as (Hhosts & _ & _ & Hid & _ & _ & Hssl & _).
  exists s. split; [reflexivity|]. split; [exact Hhosts|]. split; [exact Hssl|].
  vm_compute in Hid. by injection Hid.
Defined.
End MoreExamples.
